(** * Song-of-the-Day GroupMe bot: queue engine, store and dispatcher

    A shallow embedding of [sotd_bot.py].  Python [str] values are
    sequences of Unicode code points; what [json.load] returns is a
    Python value ([pyval]), and the handlers work on it with Python's
    own run-time checks, so a queue file that holds something else
    than a queue is part of the model.  The module-level side effects
    (the queue file, the HTTP posts to GroupMe) are threaded through
    an explicit [World]. *)

From Stdlib Require Import ZArith NArith Ascii String DecimalString.
From stdpp Require Import base option list gmap strings.

Local Open Scope N_scope.

(** ** Text *)

(** A Python [str]: the sequence of its code points. *)
Definition str := list N.

Definition byte_codes (s : string) : list N :=
  (fun a : ascii => N_of_ascii a) <$> list_ascii_of_string s.

(** UTF-8 decoding of the bytes of a literal of this file, so that the
    message texts can be written as they stand in the Python source. *)
Fixpoint utf8_decode (bs : list N) : str :=
  match bs with
  | [] => []
  | b :: r =>
      if b <? 0x80 then b :: utf8_decode r
      else if b <? 0xE0 then
        match r with
        | b1 :: r1 => ((b - 0xC0) * 64 + (b1 - 0x80)) :: utf8_decode r1
        | _ => []
        end
      else if b <? 0xF0 then
        match r with
        | b1 :: b2 :: r2 =>
            ((b - 0xE0) * 4096 + (b1 - 0x80) * 64 + (b2 - 0x80)) :: utf8_decode r2
        | _ => []
        end
      else
        match r with
        | b1 :: b2 :: b3 :: r3 =>
            ((b - 0xF0) * 262144 + (b1 - 0x80) * 4096 + (b2 - 0x80) * 64 + (b3 - 0x80))
              :: utf8_decode r3
        | _ => []
        end
  end.

Definition u (s : string) : str := utf8_decode (byte_codes s).

Definition NL : N := 10.
Definition QUOTE : N := 34.
Definition BACKSLASH : N := 92.

(** [str.isspace] for one character: the code points CPython's
    [_PyUnicode_IsWhitespace] accepts. *)
Definition is_space (c : N) : bool :=
  ((0x09 <=? c) && (c <=? 0x0D)) || ((0x1C <=? c) && (c <=? 0x20))
  || (c =? 0x85) || (c =? 0xA0) || (c =? 0x1680)
  || ((0x2000 <=? c) && (c <=? 0x200A))
  || (c =? 0x2028) || (c =? 0x2029) || (c =? 0x202F) || (c =? 0x205F)
  || (c =? 0x3000).

Fixpoint lstrip (s : str) : str :=
  match s with
  | c :: r => if is_space c then lstrip r else s
  | [] => []
  end.

Definition rstrip (s : str) : str := reverse (lstrip (reverse s)).

(** [s.strip()] *)
Definition strip (s : str) : str := rstrip (lstrip s).

Definition is_ascii (c : N) : Prop := c < 0x80.

(** [str.lower] on an ASCII character. *)
Definition ascii_lower (c : N) : N :=
  if (0x41 <=? c) && (c <=? 0x5A) then c + 0x20 else c.

Fixpoint is_prefix (p s : str) : bool :=
  match p, s with
  | [], _ => true
  | a :: p', b :: s' => (a =? b) && is_prefix p' s'
  | _ :: _, [] => false
  end.

Fixpoint find_from (i : Z) (text sub : str) : Z :=
  if is_prefix sub text then i
  else match text with
       | [] => (-1)%Z
       | _ :: r => find_from (i + 1)%Z r sub
       end.

(** [text.find(sub)]: the lowest index at which [sub] occurs, or -1. *)
Definition find (text sub : str) : Z := find_from 0%Z text sub.

(** [sep.join(parts)] *)
Fixpoint join (sep : str) (parts : list str) : str :=
  match parts with
  | [] => []
  | [p] => p
  | p :: ps => p ++ sep ++ join sep ps
  end.

(** [str(n)] for a non-negative integer. *)
Definition str_of_nat (n : nat) : str :=
  byte_codes (NilEmpty.string_of_uint (Nat.to_uint n)).


(** ** Data model *)

(** The Python values of JSON, which is what [json.load] gives back.
    A float is held by the number text it was read from; a dict by its
    items in insertion order, keys distinct. *)
Unset Elimination Schemes.
Inductive pyval :=
| PNone
| PBool (b : bool)
| PInt (z : Z)
| PFloat (txt : str)
| PStr (s : str)
| PList (l : list pyval)
| PDict (d : list (str * pyval)).
Set Elimination Schemes.

(** [d[k] = v] on the items of a dict. *)
Fixpoint dict_set (d : list (str * pyval)) (k : str) (v : pyval) : list (str * pyval) :=
  match d with
  | [] => [(k, v)]
  | (k', v') :: rest =>
      if decide (k' = k) then (k', v) :: rest else (k', v') :: dict_set rest k v
  end.

(** [d.get(k)] on the items of a dict. *)
Fixpoint dict_get (d : list (str * pyval)) (k : str) : option pyval :=
  match d with
  | [] => None
  | (k', v') :: rest => if decide (k' = k) then Some v' else dict_get rest k
  end.

(** One queue entry as the annotations of the code have it
    ([Dict[str, str]]): an identity and a display name. *)
Record Entry := mkEntry { user_id : str; name : str }.

(** The queue, front first ([List[Dict[str, str]]]). *)
Abbreviation Queue := (list Entry).

Global Instance Entry_eq_dec : EqDecision Entry.
Proof. solve_decision. Defined.

Definition ids (q : Queue) : list str := user_id <$> q.

Definition key_user_id : str := Eval vm_compute in u "user_id".
Definition key_name : str := Eval vm_compute in u "name".

(** The dict [{"user_id": user_id, "name": name}] that [_signup]
    builds. *)
Definition of_entry (e : Entry) : pyval :=
  PDict [(key_user_id, PStr (user_id e)); (key_name, PStr (name e))].

(** The Python list of the entries of a queue. *)
Definition of_queue (q : Queue) : pyval := PList (of_entry <$> q).

(** The ["mentions"] attachment of a GroupMe post. *)
Record Attachment := mkAttachment {
  att_type : str;
  user_ids : list pyval;
  loci : list (Z * Z)
}.

(** The JSON body handed to [requests.post]; [attachments] is [None]
    when the key is not set. *)
Record Payload := mkPayload {
  bot_id : str;
  text : str;
  attachments : option (list Attachment)
}.

(** Module-level configuration read from the environment.
    [QUEUE_FILE] is the path as [pathlib] holds it, components joined
    by ["/"]. *)
Record Config := mkConfig {
  BOT_ID : str;
  PING_AT : str;
  QUEUE_FILE : str
}.

(** ** Exceptions *)

Inductive exn :=
| OSError | JSONDecodeError | ValueError | HTTPError
| TypeError | KeyError | IndexError | AttributeError.

Inductive Result (A : Type) := Ret (a : A) | Raise (e : exn).
Arguments Ret {A} a.
Arguments Raise {A} e.

Global Instance Result_ret : MRet Result := λ A a, Ret a.

Global Instance Result_bind : MBind Result := λ A B f r,
  match r with
  | Ret a => f a
  | Raise e => Raise e
  end.

(** ** CPython's [json], as the bot calls it

    A model of the [json] module of CPython 3.11.  [dumps] is the text
    [json.dump(q, fp, indent=2)] writes, the other options at their
    defaults ([ensure_ascii], the separators of an indented dump);
    [loads] is [json.load] with the default decoder ([strict], the C
    scanner), [None] where it raises [JSONDecodeError].  Not
    modelled: the value of a float (a float is the number text it was
    read from, and that text is what [dumps] writes for it), the limit
    on the digits of an integer and the limit on nesting depth. *)
Module PyJson.

Definition lit_null : str := Eval vm_compute in u "null".
Definition lit_true : str := Eval vm_compute in u "true".
Definition lit_false : str := Eval vm_compute in u "false".
Definition lit_NaN : str := Eval vm_compute in u "NaN".
Definition lit_Infinity : str := Eval vm_compute in u "Infinity".
Definition lit_neg_Infinity : str := Eval vm_compute in u "-Infinity".

(** *** Encoder *)

Definition hexdigit (d : N) : N := if d <? 10 then 48 + d else 87 + d.

Definition hex4 (n : N) : str :=
  [hexdigit (n / 4096 mod 16); hexdigit (n / 256 mod 16);
   hexdigit (n / 16 mod 16); hexdigit (n mod 16)].

(** [\uXXXX] *)
Definition u_escape (n : N) : str := [92; 117] ++ hex4 n.

(** One character under [ensure_ascii]. *)
Definition escape_char (c : N) : str :=
  if c =? 34 then [92; 34]
  else if c =? 92 then [92; 92]
  else if c =? 10 then [92; 110]
  else if c =? 13 then [92; 114]
  else if c =? 9 then [92; 116]
  else if c =? 8 then [92; 98]
  else if c =? 12 then [92; 102]
  else if (0x20 <=? c) && (c <=? 0x7E) then [c]
  else if c <? 0x10000 then u_escape c
  else u_escape (0xD800 + (c - 0x10000) / 1024 mod 1024)
       ++ u_escape (0xDC00 + (c - 0x10000) mod 1024).

Fixpoint escape (s : str) : str :=
  match s with
  | [] => []
  | c :: r => escape_char c ++ escape r
  end.

Definition encode_string (s : str) : str := [34] ++ escape s ++ [34].

(** [int.__repr__] *)
Definition int_repr (z : Z) : str :=
  byte_codes (NilZero.string_of_int (Z.to_int z)).

(** A new line and the indentation of [level]. *)
Definition newline_indent (level : nat) : str := 10 :: replicate (2 * level) 32.

Fixpoint encode (level : nat) (v : pyval) : str :=
  match v with
  | PNone => lit_null
  | PBool true => lit_true
  | PBool false => lit_false
  | PInt z => int_repr z
  | PFloat txt => txt
  | PStr s => encode_string s
  | PList [] => [91; 93]
  | PList l =>
      [91] ++ newline_indent (S level)
      ++ join ([44] ++ newline_indent (S level)) (map (encode (S level)) l)
      ++ newline_indent level ++ [93]
  | PDict [] => [123; 125]
  | PDict d =>
      [123] ++ newline_indent (S level)
      ++ join ([44] ++ newline_indent (S level))
           (map (λ kv, encode_string (fst kv) ++ [58; 32] ++ encode (S level) (snd kv)) d)
      ++ newline_indent level ++ [125]
  end.

Definition dumps (v : pyval) : str := encode 0 v.

(** *** Decoder *)

Definition is_ws (c : N) : bool := (c =? 32) || (c =? 9) || (c =? 10) || (c =? 13).

Fixpoint skip_ws (s : str) : str :=
  match s with
  | c :: r => if is_ws c then skip_ws r else s
  | [] => []
  end.

Definition unhex (c : N) : option N :=
  if (48 <=? c) && (c <=? 57) then Some (c - 48)
  else if (97 <=? c) && (c <=? 102) then Some (c - 87)
  else if (65 <=? c) && (c <=? 70) then Some (c - 55)
  else None.

Definition unhex4 (a b c d : N) : option N :=
  match unhex a, unhex b, unhex c, unhex d with
  | Some a, Some b, Some c, Some d => Some (((a * 16 + b) * 16 + c) * 16 + d)
  | _, _, _, _ => None
  end.

Definition is_high (c : N) : bool := (0xD800 <=? c) && (c <=? 0xDBFF).
Definition is_low (c : N) : bool := (0xDC00 <=? c) && (c <=? 0xDFFF).

Definition join_surrogates (hi lo : N) : N :=
  0x10000 + (hi - 0xD800) * 1024 + (lo - 0xDC00).

(** The character of a two-character escape. *)
Definition short_escape (e : N) : option N :=
  if e =? 34 then Some 34 else if e =? 92 then Some 92 else if e =? 47 then Some 47
  else if e =? 98 then Some 8 else if e =? 102 then Some 12 else if e =? 110 then Some 10
  else if e =? 114 then Some 13 else if e =? 116 then Some 9 else None.

Definition prepend (c : N) (o : option (str * str)) : option (str * str) :=
  match o with
  | Some (t, rest) => Some (c :: t, rest)
  | None => None
  end.

(** [scanstring], from after the opening quote: the string and what
    follows its closing quote. *)
Fixpoint scanstring (s : str) : option (str * str) :=
  match s with
  | [] => None
  | c :: r =>
      if c =? 34 then Some ([], r)
      else if c =? 92 then
        match r with
        | [] => None
        | e :: r1 =>
            if e =? 117 then
              match r1 with
              | h1 :: h2 :: h3 :: h4 :: r2 =>
                  match unhex4 h1 h2 h3 h4 with
                  | None => None
                  | Some uni =>
                      if is_high uni then
                        match r2 with
                        | b :: e2 :: l1 :: l2 :: l3 :: l4 :: r3 =>
                            if (b =? 92) && (e2 =? 117) then
                              match unhex4 l1 l2 l3 l4 with
                              | None => None
                              | Some uni2 =>
                                  if is_low uni2
                                  then prepend (join_surrogates uni uni2) (scanstring r3)
                                  else prepend uni (scanstring r2)
                              end
                            else prepend uni (scanstring r2)
                        | _ => prepend uni (scanstring r2)
                        end
                      else prepend uni (scanstring r2)
                  end
              | _ => None
              end
            else
              match short_escape e with
              | Some x => prepend x (scanstring r1)
              | None => None
              end
        end
      else if c <? 0x20 then None
      else prepend c (scanstring r)
  end.

Definition is_digit (c : N) : bool := (48 <=? c) && (c <=? 57).

Fixpoint span_digits (s : str) : str * str :=
  match s with
  | c :: r => if is_digit c then let '(ds, rest) := span_digits r in (c :: ds, rest)
              else ([], s)
  | [] => ([], [])
  end.

(** The value of a run of decimal digits. *)
Definition digits_value (ds : str) : Z :=
  fold_left (λ acc c, (acc * 10 + Z.of_N (c - 48))%Z) ds 0%Z.

(** The integer part of a number: ["0"], or a digit from 1 to 9 and
    the digits after it. *)
Definition scan_int_part (s : str) : option (str * str) :=
  match s with
  | c :: r =>
      if c =? 48 then Some ([c], r)
      else if is_digit c then let '(ds, rest) := span_digits r in Some (c :: ds, rest)
      else None
  | [] => None
  end.

(** [.digits], when a digit follows the point. *)
Definition scan_frac (s : str) : str * str :=
  match s with
  | p :: d :: r =>
      if (p =? 46) && is_digit d then
        let '(ds, rest) := span_digits r in (p :: d :: ds, rest)
      else ([], s)
  | _ => ([], s)
  end.

(** [e], an optional sign and digits, when there is a digit. *)
Definition scan_exp (s : str) : str * str :=
  match s with
  | e :: r =>
      if (e =? 101) || (e =? 69) then
        let '(sign, r1) :=
          match r with
          | g :: r' => if (g =? 45) || (g =? 43) then ([g], r') else ([], r)
          | [] => ([], r)
          end in
        match span_digits r1 with
        | ([], _) => ([], s)
        | (ds, rest) => (e :: sign ++ ds, rest)
        end
      else ([], s)
  | [] => ([], s)
  end.

Definition scan_number (s : str) : option (pyval * str) :=
  let '(sign, s1) :=
    match s with
    | c :: r => if c =? 45 then ([c], r) else ([], s)
    | [] => ([], s)
    end in
  match scan_int_part s1 with
  | None => None
  | Some (int_part, s2) =>
      let '(frac, s3) := scan_frac s2 in
      let '(exp, s4) := scan_exp s3 in
      match frac, exp with
      | [], [] =>
          Some (PInt (match sign with [] => digits_value int_part
                      | _ => - digits_value int_part end)%Z, s4)
      | _, _ => Some (PFloat (sign ++ int_part ++ frac ++ exp), s4)
      end
  end.

Definition expect (p s : str) : option str :=
  if is_prefix p s then Some (drop (length p) s) else None.

(** [null], [true], [false], [NaN], [Infinity], [-Infinity], or a
    number. *)
Definition scan_atom (s : str) : option (pyval * str) :=
  match s with
  | c :: _ =>
      if c =? 110 then r ← expect lit_null s; Some (PNone, r)
      else if c =? 116 then r ← expect lit_true s; Some (PBool true, r)
      else if c =? 102 then r ← expect lit_false s; Some (PBool false, r)
      else if c =? 78 then r ← expect lit_NaN s; Some (PFloat lit_NaN, r)
      else if c =? 73 then r ← expect lit_Infinity s; Some (PFloat lit_Infinity, r)
      else
        match (if c =? 45 then expect lit_neg_Infinity s else None) with
        | Some r => Some (PFloat lit_neg_Infinity, r)
        | None => scan_number s
        end
  | [] => None
  end.

Fixpoint scan_once (fuel : nat) (s : str) : option (pyval * str) :=
  match fuel with
  | O => None
  | S fuel =>
      match s with
      | [] => None
      | c :: r =>
          if c =? 34 then
            match scanstring r with
            | Some (t, rest) => Some (PStr t, rest)
            | None => None
            end
          else if c =? 123 then
            match skip_ws r with
            | c2 :: r2 => if c2 =? 125 then Some (PDict [], r2)
                          else scan_members fuel [] (c2 :: r2)
            | [] => None
            end
          else if c =? 91 then
            match skip_ws r with
            | c2 :: r2 => if c2 =? 93 then Some (PList [], r2)
                          else scan_items fuel [] (c2 :: r2)
            | [] => None
            end
          else scan_atom s
      end
  end
with scan_items (fuel : nat) (acc : list pyval) (s : str) : option (pyval * str) :=
  match fuel with
  | O => None
  | S fuel =>
      match scan_once fuel s with
      | None => None
      | Some (v, r) =>
          match skip_ws r with
          | c :: r' =>
              if c =? 93 then Some (PList (acc ++ [v]), r')
              else if c =? 44 then scan_items fuel (acc ++ [v]) (skip_ws r')
              else None
          | [] => None
          end
      end
  end
with scan_members (fuel : nat) (acc : list (str * pyval)) (s : str) : option (pyval * str) :=
  match fuel with
  | O => None
  | S fuel =>
      match s with
      | c :: r =>
          if c =? 34 then
            match scanstring r with
            | None => None
            | Some (k, r1) =>
                match skip_ws r1 with
                | c2 :: r2 =>
                    if c2 =? 58 then
                      match scan_once fuel (skip_ws r2) with
                      | None => None
                      | Some (v, r3) =>
                          match skip_ws r3 with
                          | c3 :: r4 =>
                              if c3 =? 125 then Some (PDict (dict_set acc k v), r4)
                              else if c3 =? 44
                              then scan_members fuel (dict_set acc k v) (skip_ws r4)
                              else None
                          | [] => None
                          end
                      end
                    else None
                | [] => None
                end
            end
          else None
      | [] => None
      end
  end.

(** [json.loads]; [None] where it raises [JSONDecodeError]. *)
Definition loads (s : str) : option pyval :=
  match s with
  | 0xFEFF :: _ => None
  | _ =>
      match scan_once (2 * length s + 2) (skip_ws s) with
      | Some (v, r) => match skip_ws r with [] => Some v | _ => None end
      | None => None
      end
  end.

End PyJson.

(** ** Python values at run time

    The operations the handlers apply to what they loaded, with the
    exceptions Python raises where the value is not of the kind the
    operation needs. *)

(** [bool(float(txt))] for the text of a JSON float: whether the
    double nearest to the number is other than zero.  It is zero when
    the digits are, and when the number is at most [2^-1075] in size,
    which rounds to zero. *)
Definition float_true (txt : str) : bool :=
  if decide (txt = PyJson.lit_NaN ∨ txt = PyJson.lit_Infinity
             ∨ txt = PyJson.lit_neg_Infinity) then true
  else
    let body := match txt with c :: r => if c =? 45 then r else txt | [] => [] end in
    let '(int_part, r1) := PyJson.span_digits body in
    let '(frac, r2) :=
      match r1 with
      | c :: r => if c =? 46 then PyJson.span_digits r else ([], r1)
      | [] => ([], r1)
      end in
    let exponent : Z :=
      match r2 with
      | _ :: c :: ds =>
          if c =? 45 then (- PyJson.digits_value ds)%Z
          else if c =? 43 then PyJson.digits_value ds
          else PyJson.digits_value (c :: ds)
      | _ => 0%Z
      end in
    let m := PyJson.digits_value (int_part ++ frac) in
    let e10 := (exponent - Z.of_nat (length frac))%Z in
    if (m =? 0)%Z then false
    else if (0 <=? e10)%Z then true
    else (10 ^ (- e10) <? m * 2 ^ 1075)%Z.

(** [bool(v)], the test of [if v:] and [not v]. *)
Definition truthy (v : pyval) : bool :=
  match v with
  | PNone => false
  | PBool b => b
  | PInt z => negb (z =? 0)%Z
  | PFloat txt => float_true txt
  | PStr [] | PList [] | PDict [] => false
  | PStr _ | PList _ | PDict _ => true
  end.

(** [list(v)], what a [for e in v] goes through: the items of a list,
    the keys of a dict, the characters of a string. *)
Definition py_iter (v : pyval) : Result (list pyval) :=
  match v with
  | PList l => Ret l
  | PDict d => Ret ((λ kv, PStr kv.1) <$> d)
  | PStr s => Ret ((λ c, PStr [c]) <$> s)
  | _ => Raise TypeError
  end.

(** [v[k]] for a string [k]. *)
Definition subscript (v : pyval) (k : str) : Result pyval :=
  match v with
  | PDict d => match dict_get d k with Some x => Ret x | None => Raise KeyError end
  | _ => Raise TypeError
  end.

(** [v == s] for a string [s]. *)
Definition eq_str (v : pyval) (s : str) : bool :=
  match v with
  | PStr t => bool_decide (t = s)
  | _ => false
  end.

(** [len(v)] *)
Definition py_len (v : pyval) : Result nat :=
  match v with
  | PList l => Ret (length l)
  | PDict d => Ret (length d)
  | PStr s => Ret (length s)
  | _ => Raise TypeError
  end.

(** [v.append(x)]: the list after the call. *)
Definition py_append (v x : pyval) : Result pyval :=
  match v with
  | PList l => Ret (PList (l ++ [x]))
  | _ => Raise AttributeError
  end.

(** [v.pop(0)]: what is popped, and the list after the call. *)
Definition py_pop0 (v : pyval) : Result (pyval * pyval) :=
  match v with
  | PList (x :: l) => Ret (x, PList l)
  | PList [] => Raise IndexError
  | PDict _ => Raise KeyError
  | _ => Raise AttributeError
  end.

(** [any(f(e) for e in items)] *)
Fixpoint py_any (f : pyval → Result bool) (items : list pyval) : Result bool :=
  match items with
  | [] => Ret false
  | e :: rest =>
      match f e with
      | Ret true => Ret true
      | Ret false => py_any f rest
      | Raise x => Raise x
      end
  end.

(** [[e for e in items if f(e)]] *)
Fixpoint py_filter (f : pyval → Result bool) (items : list pyval) : Result (list pyval) :=
  match items with
  | [] => Ret []
  | e :: rest =>
      match f e with
      | Ret b =>
          match py_filter f rest with
          | Ret l => Ret (if b then e :: l else l)
          | Raise x => Raise x
          end
      | Raise x => Raise x
      end
  end.

(** [[f(i, e) for i, e in enumerate(items)]], counting from [i]. *)
Fixpoint py_enumerate {A} (f : nat → pyval → Result A) (i : nat) (items : list pyval)
  : Result (list A) :=
  match items with
  | [] => Ret []
  | e :: rest =>
      match f i e with
      | Ret a =>
          match py_enumerate f (S i) rest with
          | Ret l => Ret (a :: l)
          | Raise x => Raise x
          end
      | Raise x => Raise x
      end
  end.

(** The parts of the Python runtime the bot calls and this file does
    not define: the [json] codec, [str.lower], and [str()] of a value
    that is not a string.  [json_loads] gives [None] where [json.load]
    raises [JSONDecodeError]. *)
Class Runtime := {
  json_dumps : pyval → str;
  json_loads : str → option pyval;
  str_lower : str → str;
  py_str : pyval → str
}.

(** On ASCII text [str.lower] lowers each letter. *)
Definition str_lower_ascii `{Runtime} : Prop :=
  ∀ s, Forall is_ascii s → str_lower s = ascii_lower <$> s.

(** [f"{v}"]: a string as it is, any other value through [str()]. *)
Definition format_value `{Runtime} (v : pyval) : str :=
  match v with
  | PStr s => s
  | _ => py_str v
  end.

(** ** The world the bot runs in *)

(** The outcome the operating system gives a file-system call:
    success, or an error; for a write, [written] characters reached
    the file before the error. *)
Inductive io_outcome := IoOk | IoErr (written : nat).

Record World := mkWorld {
  files : gmap str str;     (* regular files: path ↦ text *)
  outbox : list Payload;    (* bodies posted to the GroupMe endpoint, oldest first *)
  disk : list io_outcome;   (* outcomes of the coming file-system calls; none left: success *)
  net : list bool           (* do the coming HTTP posts succeed; none left: yes *)
}.

(** Computations: state passing with exceptions. *)
Definition M (A : Type) : Type := World → Result A * World.

Global Instance M_ret : MRet M := λ A a w, (Ret a, w).

Global Instance M_bind : MBind M := λ A B f m w,
  match m w with
  | (Ret a, w') => f a w'
  | (Raise e, w') => (Raise e, w')
  end.

Definition raise {A} (e : exn) : M A := λ w, (Raise e, w).

(** A computation on values, which leaves the world alone. *)
Definition py {A} (r : Result A) : M A := λ w, (r, w).

Definition set_files (fs : gmap str str) (w : World) : World :=
  mkWorld fs (outbox w) (disk w) (net w).

(** The operating system answers the next file-system call. *)
Definition next_io : M io_outcome := λ w,
  match disk w with
  | [] => (Ret IoOk, w)
  | o :: rest => (Ret o, mkWorld (files w) (outbox w) rest (net w))
  end.

Definition sys_call : M () :=
  o ← next_io; match o with IoOk => mret () | IoErr _ => raise OSError end.

(** [p.exists()] *)
Definition path_exists (p : str) : M bool := λ w,
  (Ret (bool_decide (is_Some (files w !! p))), w).

(** [p.open("r")] followed by reading the whole text. *)
Definition read_text (p : str) : M str :=
  sys_call;;
  ((λ w, match files w !! p with
         | Some t => (Ret t, w)
         | None => (Raise OSError, w)
         end) : M str).

(** [p.open("w")]: creates or truncates. *)
Definition open_write (p : str) : M () :=
  sys_call;; ((λ w, (Ret (), set_files (<[p := []]> (files w)) w)) : M ()).

(** Writing [t] to the file opened at [p] and closing it. *)
Definition write_text (p t : str) : M () :=
  o ← next_io;
  ((λ w, match o with
         | IoOk => (Ret (), set_files (<[p := t]> (files w)) w)
         | IoErr n => (Raise OSError, set_files (<[p := take n t]> (files w)) w)
         end) : M ()).

(** [src.replace(dst)]: an atomic rename over [dst]. *)
Definition replace_file (src dst : str) : M () :=
  sys_call;;
  ((λ w, match files w !! src with
         | Some t => (Ret (), set_files (<[dst := t]> (delete src (files w))) w)
         | None => (Raise OSError, w)
         end) : M ()).

(** [requests.post(API_ENDPOINT, json=payload, timeout=10)] and
    [res.raise_for_status()]. *)
Definition requests_post (payload : Payload) : M () := λ w,
  let w' := mkWorld (files w) (outbox w ++ [payload]) (disk w) (tail (net w)) in
  match net w with
  | false :: _ => (Raise HTTPError, w')
  | _ => (Ret (), w')
  end.

(** *** pathlib *)

(** [s.rfind(c)] for one character. *)
Fixpoint rfind_char (c : N) (s : str) : option nat :=
  match s with
  | [] => None
  | x :: r =>
      match rfind_char c r with
      | Some i => Some (S i)
      | None => if x =? c then Some 0%nat else None
      end
  end.

(** [PurePath.name]: the final path component. *)
Definition path_name (p : str) : str :=
  match rfind_char 47 p with
  | Some i => drop (S i) p
  | None => p
  end.

(** [PurePath.suffix] *)
Definition path_suffix (p : str) : str :=
  let nm := path_name p in
  match rfind_char 46 nm with
  | Some i => if (0 <? i)%nat && (i <? length nm - 1)%nat then drop i nm else []
  | None => []
  end.

(** [PurePath.with_suffix]; [None] is its [ValueError] on an empty name. *)
Definition with_suffix (p suffix : str) : option str :=
  if decide (path_name p = []) then None
  else Some (take (length p - length (path_suffix p)) p ++ suffix).

(** ** The bot *)

(** One delivery of the GroupMe webhook: the JSON object of the request
    body, with the four keys the bot reads ([None]: key absent). *)
Record Event := mkEvent {
  sender_type : option str;
  ev_text : option str;
  sender_id : str;
  ev_name : option str
}.

(** [x or default] on an optional string: [None] and [""] are falsy. *)
Definition or_default (x : option str) (default : str) : str :=
  match x with
  | Some (c :: s) => c :: s
  | _ => default
  end.

Definition OK_200 : str * nat := (u "OK", 200%nat).

Section Bot.
Context `{Runtime} (cfg : Config).

(** *** Persistence helpers *)

Definition json_load (t : str) : M pyval :=
  match json_loads t with
  | Some v => mret v
  | None => raise JSONDecodeError
  end.

Definition _load_queue : M pyval :=
  there ← path_exists (QUEUE_FILE cfg);
  if there : bool then t ← read_text (QUEUE_FILE cfg); json_load t
  else mret (PList []).

Definition _save_queue (q : pyval) : M () :=
  sys_call;;                                       (* parent.mkdir(parents, exist_ok) *)
  match with_suffix (QUEUE_FILE cfg) (u ".tmp") with
  | None => raise ValueError
  | Some tmp =>
      open_write tmp;;
      write_text tmp (json_dumps q);;
      replace_file tmp (QUEUE_FILE cfg)
  end.

(** *** GroupMe helper *)

Definition _post (text : str) (mention : option pyval) : M () :=
  payload ← py (
    let payload := mkPayload (BOT_ID cfg) text None in
    match mention with
    | Some m =>
        if truthy m then
          nm ← subscript m key_name;
          let tag := u "@" ++ format_value nm in
          let start := find text tag in
          if decide (start ≠ (-1)%Z) then
            uid ← subscript m key_user_id;
            mret (mkPayload (BOT_ID cfg) text
                    (Some [mkAttachment (u "mentions") [uid]
                             [(start, Z.of_nat (length tag))]]))
          else mret payload
        else mret payload
    | None => mret payload
    end);
  requests_post payload.

(** *** Command handlers *)

Definition msg_already (nm : str) : str := nm ++ u ", you’re already in the queue ✋".
Definition msg_joined (nm : str) : str := nm ++ u " joined the Song‑of‑the‑Day queue! 🎶".
Definition msg_absent (nm : str) : str := nm ++ u ", you weren’t in the queue 🤔".
Definition msg_left (nm : str) : str := nm ++ u " left the queue. See you next time! 👋".
Definition msg_empty : str := u "Queue is empty. Use !signup to claim a spot!".
Definition msg_listing (listing : str) : str :=
  u "Current Song‑of‑the‑Day queue:" ++ [NL] ++ listing.
Definition msg_help : str :=
  u "Commands:" ++ [NL] ++
  u "!signup  – join the queue" ++ [NL] ++
  u "!signout – leave the queue" ++ [NL] ++
  u "!queue   – display current order" ++ [NL] ++
  u "!help    – show command list" ++ [NL; NL] ++
  u "I’ll automatically tag the next person every day at the scheduled time.".
Definition msg_turn (nm : str) : str :=
  u "@" ++ nm ++ u " it’s your turn to share today’s song! 🎵".

Definition _signup (uid nm : str) : M () :=
  q ← _load_queue;
  found ← py (items ← py_iter q;
              py_any (λ e, v ← subscript e key_user_id; mret (eq_str v uid)) items);
  if found : bool then
    _post (msg_already nm) None
  else
    q ← py (py_append q (of_entry (mkEntry uid nm)));
    _save_queue q;;
    _post (msg_joined nm) None.

Definition _signout (uid nm : str) : M () :=
  q ← _load_queue;
  new_q ← py (items ← py_iter q;
              py_filter (λ e, v ← subscript e key_user_id; mret (negb (eq_str v uid)))
                items);
  n ← py (py_len q);
  if decide (length new_q = n) then
    _post (msg_absent nm) None
  else
    _save_queue (PList new_q);;
    _post (msg_left nm) None.

Definition _show_queue : M () :=
  q ← _load_queue;
  if negb (truthy q) then
    _post msg_empty None
  else
    lines ← py (items ← py_iter q;
                py_enumerate
                  (λ i e, v ← subscript e key_name;
                          mret (str_of_nat (i + 1) ++ u ". " ++ format_value v))
                  0 items);
    _post (msg_listing (join [NL] lines)) None.

Definition _help : M () := _post msg_help None.

(** *** Daily ping *)

Definition _daily_ping : M () :=
  q ← _load_queue;
  if negb (truthy q) then mret ()
  else
    '(current, q) ← py (py_pop0 q);
    nm ← py (subscript current key_name);
    _post (msg_turn (format_value nm)) (Some current);;
    q ← py (py_append q current);
    _save_queue q.

(** *** Webhook *)

Definition callback (data : Event) : M (str * nat) :=
  if decide (sender_type data ≠ Some (u "user")) then mret OK_200
  else
    let text := str_lower (strip (or_default (ev_text data) [])) in
    let uid := sender_id data in
    let nm := or_default (ev_name data) (u "Unknown") in
    (if decide (text = u "!signup") then _signup uid nm
     else if decide (text = u "!signout") then _signout uid nm
     else if decide (text = u "!queue") then _show_queue
     else if decide (text = u "!help") then _help
     else mret ());;
    mret OK_200.

(** *** Reading the world *)

(** The value [_load_queue] finds: what the queue file decodes to, or
    the empty list when there is no file. *)
Definition holds (w : World) (v : pyval) : Prop :=
  match files w !! QUEUE_FILE cfg with
  | Some t => json_loads t = Some v
  | None => v = PList []
  end.

(** The queue file holds the dump of [v]. *)
Definition dumped (w : World) (v : pyval) : Prop :=
  files w !! QUEUE_FILE cfg = Some (json_dumps v).

(** The queue [_load_queue] finds: the queue file decodes to the list
    of the entries of [q], or there is no file and [q] is empty. *)
Definition stored (w : World) (q : Queue) : Prop := holds w (of_queue q).

(** The queue file holds the dump of [q]. *)
Definition written (w : World) (q : Queue) : Prop := dumped w (of_queue q).

(** [QUEUE_FILE] has a final component, so [with_suffix] accepts it. *)
Definition named : Prop := path_name (QUEUE_FILE cfg) ≠ [].

(** The body [_post] sends for a message without a mention, and for
    one that mentions a queue entry. *)
Definition _post_payload (text : str) (mention : option Entry) : Payload :=
  mkPayload (BOT_ID cfg) text
    match mention with
    | Some m =>
        let tag := u "@" ++ name m in
        let start := find text tag in
        if decide (start ≠ (-1)%Z) then
          Some [mkAttachment (u "mentions") [PStr (user_id m)]
                  [(start, Z.of_nat (length tag))]]
        else None
    | None => None
    end.

End Bot.

(** ** The reference runtime

    CPython's [json] is [PyJson].  [str.lower] is the lowering of the
    ASCII letters, which is what CPython does on ASCII text.  [str()]
    is what CPython gives for [None], the booleans and the integers;
    for a float, a list or a dict the JSON text stands in, which is
    not their [str()], and no run below formats one. *)
Definition ref_str (v : pyval) : str :=
  match v with
  | PNone => u "None"
  | PBool true => u "True"
  | PBool false => u "False"
  | PInt z => PyJson.int_repr z
  | PStr s => s
  | _ => PyJson.dumps v
  end.

Definition ref_runtime : Runtime :=
  {| json_dumps := PyJson.dumps;
     json_loads := PyJson.loads;
     str_lower := fmap ascii_lower;
     py_str := ref_str |}.

(** ** Vocabulary of the statements *)

(** No file-system fault lies ahead. *)
Definition calm (w : World) : Prop := disk w = [].

(** The next HTTP post is accepted. *)
Definition online (w : World) : Prop := head (net w) ≠ Some false.

(** [sub] stands in [text] at index [i]. *)
Definition occurs_at (sub text : str) (i : nat) : Prop :=
  take (length sub) (drop i text) = sub.

Definition first_occurrence (sub text : str) (i : nat) : Prop :=
  occurs_at sub text i ∧ ∀ j, (j < i)%nat → ¬ occurs_at sub text j.

(** The four command tokens. *)
Definition commands : list str := [u "!signup"; u "!signout"; u "!queue"; u "!help"].

(** Does the text start with a low surrogate. *)
Definition starts_low (s : str) : bool :=
  match s with
  | d :: _ => PyJson.is_low d
  | [] => false
  end.

(** A Python string in which no high surrogate stands directly before
    a low one: code points, and no surrogate pair written as two
    characters. *)
Fixpoint text_ok (s : str) : Prop :=
  match s with
  | [] => True
  | c :: r => c < 0x110000 ∧ (PyJson.is_high c = true → starts_low r = false) ∧ text_ok r
  end.

Definition queue_text_ok (q : Queue) : Prop :=
  Forall (λ e, text_ok (user_id e) ∧ text_ok (name e)) q.

(** A configuration and worlds to run the bot on. *)
Definition cfg0 : Config := mkConfig (u "bot-1") (u "13:45") (u "queue.json").

Definition fresh_world : World := mkWorld ∅ [] [] [].

(** The queue file holds [t]. *)
Definition world_of (t : str) : World := mkWorld {[ QUEUE_FILE cfg0 := t ]} [] [] [].

Definition world_with (q : Queue) : World := world_of (PyJson.dumps (of_queue q)).

(** The queue file is there, the file system then fails: the read
    succeeds and the next call (the [mkdir] of a save) is refused. *)
Definition full_disk_world (q : Queue) : World :=
  mkWorld {[ QUEUE_FILE cfg0 := PyJson.dumps (of_queue q) ]} [] [IoOk; IoErr 0] [].

(** A queue file that is not JSON. *)
Definition garbled_world : World := world_of (u "[{oops").

(** The commands of a chat, run one after the other. *)
Fixpoint run_all (steps : list (M ())) : M () :=
  match steps with
  | [] => mret ()
  | m :: rest => m;; run_all rest
  end.

Definition ann : Entry := mkEntry (u "101") (u "Ann").
Definition bo : Entry := mkEntry (u "102") (u "Bo").
Definition cy : Entry := mkEntry (u "103") (u "Cy").

(** An entry whose name is a surrogate pair written as two characters,
    and the entry of the one character the pair encodes. *)
Definition pair_entry : Entry := mkEntry (u "104") [0xD83D; 0xDE00].
Definition joined_entry : Entry := mkEntry (u "104") [0x1F600].

(** A configuration whose queue file already ends in [.tmp]. *)
Definition cfg_tmp : Config := mkConfig (u "bot-1") (u "13:45") (u "queue.tmp").

(** The queue file is there and GroupMe refuses the next post. *)
Definition offline_world (q : Queue) : World :=
  mkWorld {[ QUEUE_FILE cfg0 := PyJson.dumps (of_queue q) ]} [] [] [false].

(** The pings [_daily_ping] posts when it goes once through [q]. *)
Definition pings (cfg : Config) (q : Queue) : list Payload :=
  (λ e, mkPayload (BOT_ID cfg) (msg_turn (name e))
          (Some [mkAttachment (u "mentions") [PStr (user_id e)]
                   [(0%Z, Z.of_nat (S (length (name e))))]])) <$> q.

(** At most one message, sent without a mention. *)
Definition one_plain_reply (cfg : Config) (m : M ()) (w : World) : Prop :=
  outbox (m w).2 = outbox w ∨
  ∃ txt, outbox (m w).2 = outbox w ++ [mkPayload (BOT_ID cfg) txt None].

(** * Checks on the text and path helpers *)

Example u_ascii : u "!help" = [33; 104; 101; 108; 112].
Proof. reflexivity. Qed.

Example u_astral : u "’ 🎶" = [0x2019; 0x20; 0x1F3B6].
Proof. reflexivity. Qed.

Example strip_keeps_inner : strip (u "  a b  ") = u "a b".
Proof. reflexivity. Qed.

Example find_first : find (u "ab@x ab@x") (u "@x") = 2%Z.
Proof. reflexivity. Qed.

Example find_absent : find (u "abc") (u "@x") = (-1)%Z.
Proof. reflexivity. Qed.

Example str_of_nat_12 : str_of_nat 12 = u "12".
Proof. reflexivity. Qed.

Example with_suffix_default : with_suffix (u "queue.json") (u ".tmp") = Some (u "queue.tmp").
Proof. reflexivity. Qed.

Example with_suffix_dirs : with_suffix (u "a/b.c.d") (u ".tmp") = Some (u "a/b.c.tmp").
Proof. reflexivity. Qed.

Example with_suffix_hidden : with_suffix (u "a/.b") (u ".tmp") = Some (u "a/.b.tmp").
Proof. reflexivity. Qed.

Example with_suffix_root : with_suffix (u "/") (u ".tmp") = None.
Proof. reflexivity. Qed.

Example with_suffix_trailing_dot : with_suffix (u "foo.") (u ".tmp") = Some (u "foo..tmp").
Proof. reflexivity. Qed.

Example with_suffix_same : with_suffix (u "q.tmp") (u ".tmp") = Some (u "q.tmp").
Proof. reflexivity. Qed.

(** * [PyJson] against CPython

    The results of [json.loads] and of [json.dumps(v, indent=2)] of
    CPython 3.11 on the same inputs, texts given by their code
    points. *)

(** The literal null *)
Example loads_null :
  PyJson.loads [110; 117; 108; 108]
  = Some PNone.
Proof. vm_compute. reflexivity. Qed.

(** An empty object *)
Example loads_empty_object :
  PyJson.loads [123; 125]
  = Some (PDict []).
Proof. vm_compute. reflexivity. Qed.

(** A string at top level *)
Example loads_scalar_string :
  PyJson.loads [34; 97; 98; 99; 34]
  = Some (PStr [97; 98; 99]).
Proof. vm_compute. reflexivity. Qed.

(** Minus zero is the integer 0 *)
Example loads_negative_zero :
  PyJson.loads [45; 48]
  = Some (PInt 0).
Proof. vm_compute. reflexivity. Qed.

(** An integer beyond 64 bits *)
Example loads_big_int :
  PyJson.loads [45; 49; 50; 51; 52; 53; 54; 55; 56; 57; 48; 49; 50; 51; 52; 53; 54; 55;
    56; 57; 48; 49; 50; 51]
  = Some (PInt (-12345678901234567890123)).
Proof. vm_compute. reflexivity. Qed.

(** Nested lists and objects *)
Example loads_nested :
  PyJson.loads [91; 91; 93; 44; 91; 123; 125; 93; 44; 123; 34; 97; 34; 58; 91; 49; 44;
    123; 34; 98; 34; 58; 110; 117; 108; 108; 125; 93; 125; 93]
  = Some (PList [PList []; PList [PDict []]; PDict [([97], PList [PInt 1; PDict [([98],
    PNone)]])]]).
Proof. vm_compute. reflexivity. Qed.

(** White space around the tokens *)
Example loads_whitespace :
  PyJson.loads [9; 91; 32; 49; 32; 44; 10; 32; 50; 32; 93; 13; 10]
  = Some (PList [PInt 1; PInt 2]).
Proof. vm_compute. reflexivity. Qed.

(** A key given twice keeps its first place and its last value *)
Example loads_duplicate_keys :
  PyJson.loads [123; 34; 98; 34; 58; 49; 44; 34; 97; 34; 58; 50; 44; 34; 98; 34; 58;
    51; 44; 34; 99; 34; 58; 52; 44; 34; 97; 34; 58; 53; 125]
  = Some (PDict [([98], PInt 3); ([97], PInt 5); ([99], PInt 4)]).
Proof. vm_compute. reflexivity. Qed.

(** A queue of one entry *)
Example loads_queue :
  PyJson.loads [91; 123; 34; 117; 115; 101; 114; 95; 105; 100; 34; 58; 32; 34; 49; 34;
    44; 32; 34; 110; 97; 109; 101; 34; 58; 32; 34; 65; 34; 125; 93]
  = Some (PList [PDict [([117; 115; 101; 114; 95; 105; 100], PStr [49]); ([110; 97;
    109; 101], PStr [65])]]).
Proof. vm_compute. reflexivity. Qed.

(** The keys of an entry in the other order *)
Example loads_name_first :
  PyJson.loads [91; 123; 34; 110; 97; 109; 101; 34; 58; 32; 34; 65; 34; 44; 32; 34;
    117; 115; 101; 114; 95; 105; 100; 34; 58; 32; 34; 49; 34; 125; 93]
  = Some (PList [PDict [([110; 97; 109; 101], PStr [65]); ([117; 115; 101; 114; 95;
    105; 100], PStr [49])]]).
Proof. vm_compute. reflexivity. Qed.

(** A trailing comma *)
Example loads_trailing_comma :
  PyJson.loads [91; 49; 44; 93]
  = None.
Proof. vm_compute. reflexivity. Qed.

(** A leading zero *)
Example loads_leading_zero :
  PyJson.loads [48; 49]
  = None.
Proof. vm_compute. reflexivity. Qed.

(** Single quotes *)
Example loads_single_quotes :
  PyJson.loads [123; 39; 97; 39; 58; 49; 125]
  = None.
Proof. vm_compute. reflexivity. Qed.

(** A byte order mark *)
Example loads_bom :
  PyJson.loads [65279; 91; 93]
  = None.
Proof. vm_compute. reflexivity. Qed.

(** Text after the value *)
Example loads_trailing_text :
  PyJson.loads [91; 93; 120]
  = None.
Proof. vm_compute. reflexivity. Qed.

(** The empty text *)
Example loads_empty_text :
  PyJson.loads []
  = None.
Proof. vm_compute. reflexivity. Qed.

(** An unclosed list *)
Example loads_missing_bracket :
  PyJson.loads [91; 49; 44; 50]
  = None.
Proof. vm_compute. reflexivity. Qed.

(** A raw line feed inside a string *)
Example loads_raw_newline :
  PyJson.loads [34; 97; 10; 98; 34]
  = None.
Proof. vm_compute. reflexivity. Qed.

(** The character 0x7F inside a string *)
Example loads_raw_del :
  PyJson.loads [34; 127; 34]
  = Some (PStr [127]).
Proof. vm_compute. reflexivity. Qed.

(** The two-character escapes *)
Example loads_short_escapes :
  PyJson.loads [34; 92; 98; 92; 102; 92; 110; 92; 114; 92; 116; 92; 34; 92; 92; 92; 47;
    34]
  = Some (PStr [8; 12; 10; 13; 9; 34; 92; 47]).
Proof. vm_compute. reflexivity. Qed.

(** An escape JSON does not have *)
Example loads_bad_escape :
  PyJson.loads [34; 92; 97; 34]
  = None.
Proof. vm_compute. reflexivity. Qed.

(** A hexadecimal escape JSON does not have *)
Example loads_hex_escape :
  PyJson.loads [34; 92; 120; 52; 49; 34]
  = None.
Proof. vm_compute. reflexivity. Qed.

(** Four-digit escapes, both cases of the hex digits *)
Example loads_u_escape :
  PyJson.loads [34; 92; 117; 48; 48; 101; 57; 92; 117; 48; 48; 69; 57; 34]
  = Some (PStr [233; 233]).
Proof. vm_compute. reflexivity. Qed.

(** An escape with two digits *)
Example loads_u_escape_short :
  PyJson.loads [34; 92; 117; 49; 50; 34]
  = None.
Proof. vm_compute. reflexivity. Qed.

(** An escape with a sign among the digits *)
Example loads_u_escape_sign :
  PyJson.loads [34; 92; 117; 43; 48; 52; 49; 34]
  = None.
Proof. vm_compute. reflexivity. Qed.

(** The escapes of a surrogate pair: one character *)
Example loads_surrogate_pair :
  PyJson.loads [34; 92; 117; 100; 56; 51; 100; 92; 117; 100; 101; 48; 48; 34]
  = Some (PStr [128512]).
Proof. vm_compute. reflexivity. Qed.

(** The escape of a high surrogate alone *)
Example loads_lone_high :
  PyJson.loads [34; 92; 117; 100; 56; 51; 100; 34]
  = Some (PStr [55357]).
Proof. vm_compute. reflexivity. Qed.

(** A high surrogate and a letter *)
Example loads_high_then_letter :
  PyJson.loads [34; 92; 117; 100; 56; 51; 100; 92; 117; 48; 48; 52; 49; 34]
  = Some (PStr [55357; 65]).
Proof. vm_compute. reflexivity. Qed.

(** A low surrogate before a high one *)
Example loads_low_then_high :
  PyJson.loads [34; 92; 117; 100; 101; 48; 48; 92; 117; 100; 56; 51; 100; 34]
  = Some (PStr [56832; 55357]).
Proof. vm_compute. reflexivity. Qed.

(** Two high surrogates and a low one *)
Example loads_high_high_low :
  PyJson.loads [34; 92; 117; 100; 56; 51; 100; 92; 117; 100; 56; 51; 100; 92; 117; 100;
    101; 48; 48; 34]
  = Some (PStr [55357; 128512]).
Proof. vm_compute. reflexivity. Qed.

(** A high surrogate and an escape that is none *)
Example loads_high_then_bad :
  PyJson.loads [34; 92; 117; 100; 56; 51; 100; 92; 117; 122; 122; 122; 122; 34]
  = None.
Proof. vm_compute. reflexivity. Qed.

(** A vertical tab is not white space *)
Example loads_vertical_tab :
  PyJson.loads [11; 91; 49; 93]
  = None.
Proof. vm_compute. reflexivity. Qed.

(** A no-break space is not white space *)
Example loads_no_break_space :
  PyJson.loads [160; 91; 49; 93]
  = None.
Proof. vm_compute. reflexivity. Qed.

(** A digit that is not ASCII *)
Example loads_arabic_digit :
  PyJson.loads [1635]
  = None.
Proof. vm_compute. reflexivity. Qed.

(** A plus sign *)
Example loads_plus_sign :
  PyJson.loads [43; 49]
  = None.
Proof. vm_compute. reflexivity. Qed.

(** A point without digits *)
Example loads_number_dot :
  PyJson.loads [49; 46]
  = None.
Proof. vm_compute. reflexivity. Qed.

(** Digits after a point only *)
Example loads_dot_number :
  PyJson.loads [46; 53]
  = None.
Proof. vm_compute. reflexivity. Qed.

(** An exponent without digits *)
Example loads_exponent_empty :
  PyJson.loads [49; 101]
  = None.
Proof. vm_compute. reflexivity. Qed.

(** A cut literal *)
Example loads_truncated_true :
  PyJson.loads [116; 114; 117]
  = None.
Proof. vm_compute. reflexivity. Qed.

(** A key that is not a string *)
Example loads_non_string_key :
  PyJson.loads [123; 49; 58; 50; 125]
  = None.
Proof. vm_compute. reflexivity. Qed.

Example loads_float :
  PyJson.loads [45; 49; 46; 48; 101; 45; 50]
  = Some (PFloat [45; 49; 46; 48; 101; 45; 50]).
Proof. vm_compute. reflexivity. Qed.

Example loads_float_exponent :
  PyJson.loads [49; 69; 43; 50]
  = Some (PFloat [49; 69; 43; 50]).
Proof. vm_compute. reflexivity. Qed.

Example loads_NaN :
  PyJson.loads [78; 97; 78]
  = Some (PFloat [78; 97; 78]).
Proof. vm_compute. reflexivity. Qed.

Example loads_Infinity :
  PyJson.loads [73; 110; 102; 105; 110; 105; 116; 121]
  = Some (PFloat [73; 110; 102; 105; 110; 105; 116; 121]).
Proof. vm_compute. reflexivity. Qed.

Example loads_neg_Infinity :
  PyJson.loads [45; 73; 110; 102; 105; 110; 105; 116; 121]
  = Some (PFloat [45; 73; 110; 102; 105; 110; 105; 116; 121]).
Proof. vm_compute. reflexivity. Qed.

Example dumps_scalars :
  PyJson.dumps (PList [PNone; PBool true; PBool false; PInt 0; PInt (-5); PInt
    123456789012345678901234567890])
  = [91; 10; 32; 32; 110; 117; 108; 108; 44; 10; 32; 32; 116; 114; 117; 101; 44; 10;
    32; 32; 102; 97; 108; 115; 101; 44; 10; 32; 32; 48; 44; 10; 32; 32; 45; 53; 44; 10;
    32; 32; 49; 50; 51; 52; 53; 54; 55; 56; 57; 48; 49; 50; 51; 52; 53; 54; 55; 56; 57;
    48; 49; 50; 51; 52; 53; 54; 55; 56; 57; 48; 10; 93].
Proof. vm_compute. reflexivity. Qed.

Example dumps_escapes :
  PyJson.dumps (PStr [97; 34; 98; 92; 99; 47; 10; 13; 9; 8; 12; 0; 31; 127])
  = [34; 97; 92; 34; 98; 92; 92; 99; 47; 92; 110; 92; 114; 92; 116; 92; 98; 92; 102;
    92; 117; 48; 48; 48; 48; 92; 117; 48; 48; 49; 102; 92; 117; 48; 48; 55; 102; 34].
Proof. vm_compute. reflexivity. Qed.

Example dumps_non_ascii :
  PyJson.dumps (PStr [233; 8217; 127926])
  = [34; 92; 117; 48; 48; 101; 57; 92; 117; 50; 48; 49; 57; 92; 117; 100; 56; 51; 99;
    92; 117; 100; 102; 98; 54; 34].
Proof. vm_compute. reflexivity. Qed.

Example dumps_surrogates :
  PyJson.dumps (PStr [128512; 55357; 65])
  = [34; 92; 117; 100; 56; 51; 100; 92; 117; 100; 101; 48; 48; 92; 117; 100; 56; 51;
    100; 65; 34].
Proof. vm_compute. reflexivity. Qed.

Example dumps_empty_list :
  PyJson.dumps (PList [])
  = [91; 93].
Proof. vm_compute. reflexivity. Qed.

Example dumps_empty_dict :
  PyJson.dumps (PDict [])
  = [123; 125].
Proof. vm_compute. reflexivity. Qed.

Example dumps_nested :
  PyJson.dumps (PList [PInt 1; PList [PInt 2; PList [PInt 3; PDict [([107], PStr
    [118]); ([107; 50], PList [PNone; PBool true; PDict []])]]]])
  = [91; 10; 32; 32; 49; 44; 10; 32; 32; 91; 10; 32; 32; 32; 32; 50; 44; 10; 32; 32;
    32; 32; 91; 10; 32; 32; 32; 32; 32; 32; 51; 44; 10; 32; 32; 32; 32; 32; 32; 123;
    10; 32; 32; 32; 32; 32; 32; 32; 32; 34; 107; 34; 58; 32; 34; 118; 34; 44; 10; 32;
    32; 32; 32; 32; 32; 32; 32; 34; 107; 50; 34; 58; 32; 91; 10; 32; 32; 32; 32; 32;
    32; 32; 32; 32; 32; 110; 117; 108; 108; 44; 10; 32; 32; 32; 32; 32; 32; 32; 32; 32;
    32; 116; 114; 117; 101; 44; 10; 32; 32; 32; 32; 32; 32; 32; 32; 32; 32; 123; 125;
    10; 32; 32; 32; 32; 32; 32; 32; 32; 93; 10; 32; 32; 32; 32; 32; 32; 125; 10; 32;
    32; 32; 32; 93; 10; 32; 32; 93; 10; 93].
Proof. vm_compute. reflexivity. Qed.

Example dumps_object :
  PyJson.dumps (PDict [([97], PInt 1); ([98], PDict [([99], PList [])])])
  = [123; 10; 32; 32; 34; 97; 34; 58; 32; 49; 44; 10; 32; 32; 34; 98; 34; 58; 32; 123;
    10; 32; 32; 32; 32; 34; 99; 34; 58; 32; 91; 93; 10; 32; 32; 125; 10; 125].
Proof. vm_compute. reflexivity. Qed.

Example float_true_zero : float_true [48; 46; 48] = false.
Proof. vm_compute. reflexivity. Qed.

Example float_true_neg_zero : float_true [45; 48; 46; 48] = false.
Proof. vm_compute. reflexivity. Qed.

Example float_true_zero_exponent : float_true [48; 101; 53] = false.
Proof. vm_compute. reflexivity. Qed.

Example float_true_one : float_true [49; 46; 48] = true.
Proof. vm_compute. reflexivity. Qed.

Example float_true_smallest : float_true [53; 101; 45; 51; 50; 52] = true.
Proof. vm_compute. reflexivity. Qed.

Example float_true_half_smallest : float_true [50; 46; 52; 55; 48; 51; 50; 56; 50; 50; 57; 50; 48; 54; 50; 51; 50; 56; 101; 45; 51; 50; 52] = true.
Proof. vm_compute. reflexivity. Qed.

Example float_true_below_half : float_true [50; 46; 52; 55; 48; 51; 50; 56; 50; 50; 57; 50; 48; 54; 50; 51; 50; 55; 101; 45; 51; 50; 52] = false.
Proof. vm_compute. reflexivity. Qed.

Example float_true_underflow : float_true [49; 101; 45; 52; 48; 48] = false.
Proof. vm_compute. reflexivity. Qed.

Example float_true_overflow : float_true [49; 101; 57; 57; 57] = true.
Proof. vm_compute. reflexivity. Qed.

Example float_true_nan : float_true [78; 97; 78] = true.
Proof. vm_compute. reflexivity. Qed.

Example float_true_neg_inf : float_true [45; 73; 110; 102; 105; 110; 105; 116; 121] = true.
Proof. vm_compute. reflexivity. Qed.

Example dumps_two :
  PyJson.dumps (of_queue [mkEntry (u "1") (u "Ann"); mkEntry (u "2") (u "Bo")]) =
  u "[" ++ [NL] ++
  u "  {" ++ [NL] ++
  u "    " ++ [QUOTE] ++ u "user_id" ++ [QUOTE] ++ u ": " ++ [QUOTE] ++ u "1" ++ [QUOTE] ++ u "," ++ [NL] ++
  u "    " ++ [QUOTE] ++ u "name" ++ [QUOTE] ++ u ": " ++ [QUOTE] ++ u "Ann" ++ [QUOTE] ++ [NL] ++
  u "  }," ++ [NL] ++
  u "  {" ++ [NL] ++
  u "    " ++ [QUOTE] ++ u "user_id" ++ [QUOTE] ++ u ": " ++ [QUOTE] ++ u "2" ++ [QUOTE] ++ u "," ++ [NL] ++
  u "    " ++ [QUOTE] ++ u "name" ++ [QUOTE] ++ u ": " ++ [QUOTE] ++ u "Bo" ++ [QUOTE] ++ [NL] ++
  u "  }" ++ [NL] ++
  u "]".
Proof. vm_compute. reflexivity. Qed.

Example loads_two :
  PyJson.loads (PyJson.dumps (of_queue [mkEntry (u "1") (u "Ann"); mkEntry (u "2") (u "Bo")])) =
  Some (of_queue [mkEntry (u "1") (u "Ann"); mkEntry (u "2") (u "Bo")]).
Proof. vm_compute. reflexivity. Qed.

Example loads_garbage : PyJson.loads (u "[{oops") = None.
Proof. vm_compute. reflexivity. Qed.

(** * Python's checks at run time *)

Example truthy_values :
  truthy <$> [PNone; PBool false; PInt 0; PStr []; PList []; PDict [];
              PBool true; PInt (-3); PStr (u "0"); PList [PNone]; PDict [(u "a", PNone)]]
  = [false; false; false; false; false; false; true; true; true; true; true].
Proof. reflexivity. Qed.

Example iter_dict_gives_keys :
  py_iter (PDict [(u "a", PInt 1); (u "b", PInt 2)]) = Ret [PStr (u "a"); PStr (u "b")].
Proof. reflexivity. Qed.

Example iter_str_gives_characters : py_iter (PStr (u "ab")) = Ret [PStr (u "a"); PStr (u "b")].
Proof. reflexivity. Qed.

Example iter_number : py_iter (PInt 3) = Raise TypeError.
Proof. reflexivity. Qed.

Example subscript_missing_key : subscript (PDict [(key_name, PStr (u "n"))]) key_user_id = Raise KeyError.
Proof. reflexivity. Qed.

Example subscript_str : subscript (PStr (u "ab")) key_name = Raise TypeError.
Proof. reflexivity. Qed.

Example any_stops_at_first_match :
  py_any (λ e, v ← subscript e key_user_id; mret (eq_str v (u "x")))
    [PDict [(key_user_id, PStr (u "x"))]; PInt 5] = Ret true.
Proof. reflexivity. Qed.

Example any_raises_before_match :
  py_any (λ e, v ← subscript e key_user_id; mret (eq_str v (u "x")))
    [PInt 5; PDict [(key_user_id, PStr (u "x"))]] = Raise TypeError.
Proof. reflexivity. Qed.

Example filter_keeps_other_kinds :
  py_filter (λ e, v ← subscript e key_user_id; mret (negb (eq_str v (u "x"))))
    [PDict [(key_user_id, PStr (u "x"))]; PDict [(key_user_id, PInt 1)];
     PDict [(key_user_id, PNone)]]
  = Ret [PDict [(key_user_id, PInt 1)]; PDict [(key_user_id, PNone)]].
Proof. reflexivity. Qed.

Example pop_dict : py_pop0 (PDict [(u "a", PInt 1)]) = Raise KeyError.
Proof. reflexivity. Qed.

Example append_dict : py_append (PDict []) PNone = Raise AttributeError.
Proof. reflexivity. Qed.


(** * CPython's [json] reads back the queues it wrote *)

Section PyJsonFacts.
Import PyJson.

Lemma unhex_hexdigit d : d < 16 → unhex (hexdigit d) = Some d.
Proof.
  intros Hd. unfold unhex, hexdigit.
  destruct (N.ltb_spec d 10).
  - rewrite (proj2 (N.leb_le 48 (48 + d))), (proj2 (N.leb_le (48 + d) 57)) by lia.
    simpl. f_equal. lia.
  - destruct (N.leb_spec (87 + d) 57); [lia|]. rewrite andb_false_r.
    rewrite (proj2 (N.leb_le 97 (87 + d))), (proj2 (N.leb_le (87 + d) 102)) by lia.
    simpl. f_equal. lia.
Qed.

Lemma unhex4_hex4 n :
  n < 65536 →
  unhex4 (hexdigit (n / 4096 mod 16)) (hexdigit (n / 256 mod 16))
         (hexdigit (n / 16 mod 16)) (hexdigit (n mod 16)) = Some n.
Proof.
  intros Hn. unfold unhex4.
  rewrite !unhex_hexdigit by (apply N.mod_lt; lia).
  f_equal.
  change 4096 with (16 * 16 * 16). change 256 with (16 * 16).
  rewrite <- !N.Div0.div_div.
  assert (n / 16 / 16 / 16 < 16).
  { do 3 (apply N.Div0.div_lt_upper_bound). lia. }
  rewrite (N.mod_small (n / 16 / 16 / 16)) by done.
  pose proof (N.div_mod' n 16). pose proof (N.div_mod' (n / 16) 16).
  pose proof (N.div_mod' (n / 16 / 16) 16).
  nia.
Qed.

End PyJsonFacts.

Ltac ncase :=
  repeat match goal with
  | |- context [N.eqb ?a ?b] => destruct (N.eqb_spec a b); try lia
  | |- context [N.leb ?a ?b] => destruct (N.leb_spec a b); try lia
  | |- context [N.ltb ?a ?b] => destruct (N.ltb_spec a b); try lia
  end.

Section ScanString.
Import PyJson.

Lemma high_half c :
  0x10000 ≤ c → c < 0x110000 →
  let hi := 0xD800 + (c - 0x10000) / 1024 mod 1024 in
  let lo := 0xDC00 + (c - 0x10000) mod 1024 in
  hi < 65536 ∧ lo < 65536 ∧ is_high hi = true ∧ is_low hi = false ∧ is_low lo = true
  ∧ join_surrogates hi lo = c.
Proof.
  intros H1 H2. simpl.
  assert ((c - 0x10000) / 1024 < 1024) by (apply N.Div0.div_lt_upper_bound; lia).
  rewrite (N.mod_small ((c - 0x10000) / 1024)) by done.
  pose proof (N.mod_lt (c - 0x10000) 1024 ltac:(lia)).
  pose proof (N.div_mod' (c - 0x10000) 1024).
  unfold is_high, is_low, join_surrogates.
  generalize dependent ((c - 0x10000) / 1024). generalize dependent ((c - 0x10000) mod 1024).
  intros r Hr q Hq Hc.
  repeat split; try lia; ncase; try reflexivity; lia.
Qed.

Lemma scanstring_u_escape n tail :
  n < 65536 →
  scanstring (u_escape n ++ tail) =
  if is_high n then
    match tail with
    | b :: e2 :: l1 :: l2 :: l3 :: l4 :: r3 =>
        if (b =? 92) && (e2 =? 117) then
          match unhex4 l1 l2 l3 l4 with
          | None => None
          | Some uni2 =>
              if is_low uni2
              then prepend (join_surrogates n uni2) (scanstring r3)
              else prepend n (scanstring tail)
          end
        else prepend n (scanstring tail)
    | _ => prepend n (scanstring tail)
    end
  else prepend n (scanstring tail).
Proof.
  intros Hn. unfold u_escape, hex4. cbn [app scanstring].
  change (92 =? 34) with false. change (92 =? 92) with true.
  change (117 =? 117) with true. cbv iota.
  rewrite unhex4_hex4 by done. reflexivity.
Qed.

(** The characters [escape_char] writes for [d] do not read as the
    escape of a low surrogate, unless [d] is one. *)
Lemma no_low_ahead {A} d tail (yes : N → str → A) (no bad : A) :
  d < 0x110000 → is_low d = false →
  match escape_char d ++ tail with
  | b :: e2 :: l1 :: l2 :: l3 :: l4 :: r3 =>
      if (b =? 92) && (e2 =? 117) then
        match unhex4 l1 l2 l3 l4 with
        | None => bad
        | Some uni2 => if is_low uni2 then yes uni2 r3 else no
        end
      else no
  | _ => no
  end = no.
Proof.
  intros Hd Hlow. unfold escape_char.
  destruct (N.eqb_spec d 34); [by destruct tail as [|? [|? [|? [|? ?]]]]|].
  destruct (N.eqb_spec d 92); [by destruct tail as [|? [|? [|? [|? ?]]]]|].
  destruct (N.eqb_spec d 10); [by destruct tail as [|? [|? [|? [|? ?]]]]|].
  destruct (N.eqb_spec d 13); [by destruct tail as [|? [|? [|? [|? ?]]]]|].
  destruct (N.eqb_spec d 9); [by destruct tail as [|? [|? [|? [|? ?]]]]|].
  destruct (N.eqb_spec d 8); [by destruct tail as [|? [|? [|? [|? ?]]]]|].
  destruct (N.eqb_spec d 12); [by destruct tail as [|? [|? [|? [|? ?]]]]|].
  destruct ((0x20 <=? d) && (d <=? 0x7E)) eqn:Hp.
  { destruct tail as [|? [|? [|? [|? [|? ?]]]]]; cbn [app]; try done.
    by rewrite (proj2 (N.eqb_neq d 92)). }
  destruct (N.ltb_spec d 0x10000).
  - unfold u_escape, hex4. cbn [app].
    change (92 =? 92) with true. change (117 =? 117) with true. cbv iota. simpl andb. cbv iota.
    rewrite unhex4_hex4 by done. by rewrite Hlow.
  - destruct (high_half d) as (Hhi & _ & _ & Hnl & _); [done..|].
    unfold u_escape at 1, hex4 at 1. cbn [app].
    change (92 =? 92) with true. change (117 =? 117) with true. simpl andb. cbv iota.
    rewrite unhex4_hex4 by done. by rewrite Hnl.
Qed.

(** [scanstring] reads back what [escape] wrote. *)
Lemma scanstring_escape s rest :
  text_ok s → scanstring (escape s ++ 34 :: rest) = Some (s, rest).
Proof.
  induction s as [|c s IH]; intros Hok; [done|].
  destruct Hok as (Hc & Hsur & Hok). specialize (IH Hok).
  cbn [escape]. rewrite <- app_assoc.
  assert (Hshort : ∀ e, e ≠ 117 → short_escape e = Some c →
            scanstring ([92; e] ++ escape s ++ 34 :: rest) = Some (c :: s, rest)).
  { intros e He Hse. cbn [app scanstring].
    change (92 =? 34) with false. change (92 =? 92) with true. cbv iota.
    rewrite (proj2 (N.eqb_neq e 117)) by done. rewrite Hse, IH. done. }
  unfold escape_char.
  destruct (N.eqb_spec c 34) as [->|?]; [by apply Hshort|].
  destruct (N.eqb_spec c 92) as [->|?]; [by apply Hshort|].
  destruct (N.eqb_spec c 10) as [->|?]; [by apply Hshort|].
  destruct (N.eqb_spec c 13) as [->|?]; [by apply Hshort|].
  destruct (N.eqb_spec c 9) as [->|?]; [by apply Hshort|].
  destruct (N.eqb_spec c 8) as [->|?]; [by apply Hshort|].
  destruct (N.eqb_spec c 12) as [->|?]; [by apply Hshort|].
  destruct ((0x20 <=? c) && (c <=? 0x7E)) eqn:Hp.
  { apply andb_true_iff in Hp as [Hlo Hhi]. apply N.leb_le in Hlo.
    cbn [app scanstring].
    rewrite (proj2 (N.eqb_neq c 34)), (proj2 (N.eqb_neq c 92)) by done.
    rewrite (proj2 (N.ltb_ge c 0x20)) by done. by rewrite IH. }
  destruct (N.ltb_spec c 0x10000) as [Hbmp|Hastral].
  - rewrite scanstring_u_escape by done.
    destruct (is_high c) eqn:Hh; [|by rewrite IH].
    destruct s as [|d s'].
    + cbn [escape app]. rewrite (proj2 (N.eqb_neq 34 92)) by done.
      change (scanstring (34 :: rest)) with (Some ([] : str, rest)).
      by destruct rest as [|? [|? [|? [|? [|? ?]]]]].
    + cbn [escape]. rewrite <- app_assoc.
      destruct Hok as (Hd & _ & _).
      rewrite no_low_ahead; [|done|by apply Hsur].
      rewrite app_assoc. change (escape_char d ++ escape s') with (escape (d :: s')).
      by rewrite IH.
  - destruct (high_half c) as (Hhi & Hlo & Hh & _ & Hl & Hj); [done..|].
    rewrite <- app_assoc.
    rewrite scanstring_u_escape by done. rewrite Hh.
    unfold u_escape at 1, hex4 at 1. cbn [app].
    change (92 =? 92) with true. change (117 =? 117) with true. simpl andb. cbv iota.
    rewrite unhex4_hex4 by done. rewrite Hl, Hj. by rewrite IH.
Qed.

End ScanString.

Section QueueDocuments.
Import PyJson.

Lemma scan_entry e f rest :
  text_ok (user_id e) → text_ok (name e) →
  scan_once (S (S (S (S f)))) (encode 1 (of_entry e) ++ rest) = Some (of_entry e, rest).
Proof.
  intros Hu Hn. destruct e as [uid nm]. simpl in Hu, Hn.
  unfold of_entry. cbn [encode map join user_id name fst snd].
  unfold encode_string, newline_indent. cbn [replicate Nat.mul Nat.add].
  rewrite <- !app_assoc. cbn [app].
  cbn. rewrite scanstring_escape by done.
  cbn. rewrite scanstring_escape by done.
  cbn. reflexivity.
Qed.

Lemma encode_entry_head e : ∃ body, encode 1 (of_entry e) = 123 :: body.
Proof. by eexists. Qed.

Lemma skip_ws_entries e q rest :
  skip_ws (join [44; 10; 32; 32] (encode 1 <$> (of_entry <$> e :: q)) ++ rest)
  = join [44; 10; 32; 32] (encode 1 <$> (of_entry <$> e :: q)) ++ rest.
Proof.
  destruct (encode_entry_head e) as [body Hb].
  destruct q; cbn [fmap list_fmap join]; by rewrite Hb.
Qed.

Lemma scan_items_queue q : ∀ e acc f rest,
  queue_text_ok (e :: q) →
  scan_items (length q + S (S (S (S (S f))))) acc
    (join [44; 10; 32; 32] (encode 1 <$> (of_entry <$> e :: q)) ++ 10 :: 93 :: rest)
  = Some (PList (acc ++ (of_entry <$> e :: q)), rest).
Proof.
  induction q as [|e' q IH]; intros e acc f rest Hok.
  - apply Forall_cons in Hok as [[Hu Hn] _].
    cbn [length Nat.add fmap list_fmap join scan_items].
    rewrite scan_entry by done. reflexivity.
  - apply Forall_cons in Hok as [[Hu Hn] Hok].
    change (join [44; 10; 32; 32] (encode 1 <$> (of_entry <$> e :: e' :: q)))
      with (encode 1 (of_entry e) ++ [44; 10; 32; 32]
            ++ join [44; 10; 32; 32] (encode 1 <$> (of_entry <$> e' :: q))).
    rewrite <- !app_assoc.
    cbn [length Nat.add scan_items].
    replace (length q + S (S (S (S (S f)))))%nat
      with (S (S (S (S (length q + S f)))))%nat by lia.
    rewrite scan_entry by done.
    replace (S (S (S (S (length q + S f)))))%nat
      with (length q + S (S (S (S (S f)))))%nat by lia.
    cbn [app skip_ws is_ws N.eqb Pos.eqb orb].
    rewrite skip_ws_entries, IH by done.
    by rewrite <- app_assoc.
Qed.

Lemma join_length (sep : str) (l : list str) :
  Forall (λ x, x ≠ []) l → (length l ≤ length (join sep l))%nat.
Proof.
  induction 1 as [|x l Hx _ IH]; [done|].
  assert (1 ≤ length x)%nat by (destruct x; [done|simpl; lia]).
  destruct l as [|y l]; [simpl; lia|].
  change (join sep (x :: y :: l)) with (x ++ sep ++ join sep (y :: l)).
  rewrite !length_app. simpl in *. lia.
Qed.

(** [json.load] reads back the queue that [json.dump] wrote, when the
    texts of the entries hold no surrogate pair. *)
Lemma loads_dumps_queue q :
  queue_text_ok q → loads (dumps (of_queue q)) = Some (of_queue q).
Proof.
  intros Hok. destruct q as [|e q]; [done|].
  unfold dumps, of_queue.
  change (encode 0 (PList (of_entry <$> e :: q)))
    with (91 :: 10 :: 32 :: 32 ::
          join [44; 10; 32; 32] (encode 1 <$> (of_entry <$> e :: q)) ++ [10; 93]).
  set (body := join [44; 10; 32; 32] (encode 1 <$> (of_entry <$> e :: q))).
  assert (Hlen : (length (e :: q) ≤ length body)%nat).
  { unfold body. etransitivity; [|apply join_length].
    - by rewrite !length_fmap.
    - apply Forall_fmap, Forall_fmap, Forall_true. intros x Hx. by destruct x. }
  assert (Hhead : ∃ b, body = 123 :: b).
  { unfold body. destruct (encode_entry_head e) as [b Hb].
    destruct q; cbn [fmap list_fmap join]; rewrite Hb; by eexists. }
  unfold loads.
  set (doc := 91 :: 10 :: 32 :: 32 :: body ++ [10; 93]).
  replace (2 * length doc + 2)%nat
    with (S (length q + S (S (S (S (S (2 * length body + 8 - length q)))))))%nat
    by (unfold doc; cbn [length] in *; rewrite length_app; cbn [length]; lia).
  unfold doc.
  cbn [skip_ws is_ws N.eqb Pos.eqb orb scan_once].
  unfold body at 1. rewrite skip_ws_entries. fold body.
  destruct Hhead as [b Hb]. rewrite Hb at 1. cbn [app N.eqb Pos.eqb].
  rewrite (app_comm_cons b), <- Hb.
  unfold body. by rewrite scan_items_queue.
Qed.

End QueueDocuments.

Lemma is_prefix_app p r : is_prefix p (p ++ r) = true.
Proof.
  induction p as [|a p IH]; [done|]. simpl. by rewrite N.eqb_refl, IH.
Qed.

Lemma text_ok_ascii s : Forall is_ascii s → text_ok s.
Proof.
  induction 1 as [|c s Hc _ IH]; [done|]. unfold is_ascii in Hc.
  split; [lia|]. split; [|done].
  unfold PyJson.is_high. intros Hh. apply andb_true_iff in Hh as [Hh _].
  apply N.leb_le in Hh. lia.
Qed.

Lemma ref_runtime_lower : @str_lower_ascii ref_runtime.
Proof. intros s _. reflexivity. Qed.

(** * The steps of the bot *)

Ltac run :=
  unfold _daily_ping, _signup, _signout, _post, requests_post,
    _save_queue, _load_queue, read_text, open_write, write_text,
    replace_file, sys_call, next_io, path_exists, json_load, raise, py,
    mbind, M_bind, mret, M_ret, set_files; simpl.

Section Steps.
Context `{Runtime} (cfg : Config).

Lemma bind_ret {A B} (m : M A) (f : A → M B) w a w' :
  m w = (Ret a, w') → (m ≫= f) w = f a w'.
Proof. intros E. unfold mbind, M_bind. by rewrite E. Qed.

Lemma bind_raise {A B} (m : M A) (f : A → M B) w e w' :
  m w = (Raise e, w') → (m ≫= f) w = (Raise e, w').
Proof. intros E. unfold mbind, M_bind. by rewrite E. Qed.

Lemma py_bind {A B} (r : Result A) (f : A → M B) w :
  (py r ≫= f) w = match r with Ret a => f a w | Raise e => (Raise e, w) end.
Proof. unfold mbind, M_bind, py. by destruct r. Qed.

Lemma next_io_calm w : calm w → next_io w = (Ret IoOk, w).
Proof. unfold calm, next_io. by intros ->. Qed.

Lemma sys_call_calm w : calm w → sys_call w = (Ret (), w).
Proof. intros Hc. unfold sys_call. by rewrite (bind_ret _ _ _ _ _ (next_io_calm w Hc)). Qed.

Lemma load_holds w v : calm w → holds cfg w v → _load_queue cfg w = (Ret v, w).
Proof.
  intros Hc Hs. unfold _load_queue, holds in *.
  unfold mbind at 1, M_bind, path_exists.
  destruct (files w !! QUEUE_FILE cfg) as [t|] eqn:E.
  - rewrite bool_decide_eq_true_2 by eauto.
    unfold read_text.
    rewrite (bind_ret _ _ w t w).
    + unfold json_load. by rewrite Hs.
    + rewrite (bind_ret _ _ _ _ _ (sys_call_calm w Hc)). by rewrite E.
  - rewrite bool_decide_eq_false_2 by (by intros [? ?]). by subst.
Qed.

Lemma load_stored w q :
  calm w → stored cfg w q → _load_queue cfg w = (Ret (of_queue q), w).
Proof. apply load_holds. Qed.

Lemma load_stored_missing w :
  files w !! QUEUE_FILE cfg = None → _load_queue cfg w = (Ret (PList []), w).
Proof.
  intros E. unfold _load_queue, mbind, M_bind, path_exists.
  rewrite E. by rewrite bool_decide_eq_false_2 by (by intros [? ?]).
Qed.

Lemma with_suffix_named suffix : named cfg → is_Some (with_suffix (QUEUE_FILE cfg) suffix).
Proof. unfold named, with_suffix. intros Hn. rewrite decide_False by done. eauto. Qed.

(** Whatever the file system does, [_load_queue] posts nothing and
    writes nothing, and what it returns is what the queue file
    holds. *)
Lemma load_cases w :
  ∃ w1,
    ((∃ e, _load_queue cfg w = (Raise e, w1)) ∨
     (∃ v, _load_queue cfg w = (Ret v, w1) ∧ holds cfg w v)) ∧
    files w1 = files w ∧ outbox w1 = outbox w ∧ net w1 = net w.
Proof.
  destruct w as [fs ob dk nt]. unfold holds. run.
  destruct (fs !! QUEUE_FILE cfg) as [t|] eqn:E.
  - rewrite bool_decide_eq_true_2 by eauto.
    destruct dk as [|[|n] dk]; simpl; rewrite ?E;
      try (destruct (json_loads t) as [q|] eqn:J);
      eexists; (split; [eauto|done]).
  - rewrite bool_decide_eq_false_2 by (by intros [? ?]).
    eexists; (split; [eauto|done]).
Qed.

(** Whatever the file system does, [_save_queue] posts nothing, and
    when it returns the queue file holds the dump. *)
Lemma save_cases v w :
  ∃ w1,
    ((∃ e, _save_queue cfg v w = (Raise e, w1)) ∨
     (_save_queue cfg v w = (Ret (), w1) ∧ dumped cfg w1 v)) ∧
    outbox w1 = outbox w ∧ net w1 = net w.
Proof.
  destruct w as [fs ob dk nt]. unfold dumped. run.
  destruct (with_suffix (QUEUE_FILE cfg) (u ".tmp")) as [tmp|];
    destruct dk as [|[|n1] [|[|n2] [|[|n3] [|[|n4] dk]]]]; simpl;
    rewrite ?lookup_insert_eq; simpl;
    eexists;
    (split;
     [ first [ left; eexists; reflexivity
             | right; split; [reflexivity | simpl; by rewrite lookup_insert_eq] ]
     | done ]).
Qed.

Lemma save_calm v w :
  calm w → named cfg →
  ∃ w1, _save_queue cfg v w = (Ret (), w1) ∧ dumped cfg w1 v ∧
        outbox w1 = outbox w ∧ net w1 = net w ∧ calm w1.
Proof.
  intros Hc Hn. destruct (with_suffix_named (u ".tmp") Hn) as [tmp Ht].
  destruct w as [fs ob dk nt]. unfold calm, dumped in *. simpl in Hc. subst dk.
  run. rewrite Ht. simpl. rewrite lookup_insert_eq. simpl.
  eexists. split; [reflexivity|]. simpl. by rewrite lookup_insert_eq.
Qed.

(** The world after a post of [p]. *)
Lemma requests_post_run p w :
  requests_post p w =
  (match net w with false :: _ => Raise HTTPError | _ => Ret () end,
   mkWorld (files w) (outbox w ++ [p]) (disk w) (tail (net w))).
Proof. unfold requests_post. by destruct (net w) as [|[] ?]. Qed.

Lemma post_run text w :
  _post cfg text None w =
  (match net w with false :: _ => Raise HTTPError | _ => Ret () end,
   mkWorld (files w) (outbox w ++ [_post_payload cfg text None]) (disk w) (tail (net w))).
Proof. unfold _post. rewrite py_bind. apply requests_post_run. Qed.

Lemma post_online text w :
  online w →
  _post cfg text None w =
  (Ret (), mkWorld (files w) (outbox w ++ [_post_payload cfg text None]) (disk w) (tail (net w))).
Proof.
  intros Ho. rewrite post_run. unfold online in Ho.
  by destruct (net w) as [|[] ?].
Qed.

Lemma post_offline text w :
  ¬ online w →
  _post cfg text None w =
  (Raise HTTPError,
   mkWorld (files w) (outbox w ++ [_post_payload cfg text None]) (disk w) (tail (net w))).
Proof.
  intros Ho. rewrite post_run. unfold online in Ho.
  destruct (net w) as [|[] ?]; simpl in *; try done; by destruct Ho.
Qed.

(** Whatever the mention is, [_post] either raises before it sends
    anything, or sends one body with the text it was given. *)
Lemma post_cases txt mention w :
  (∃ e, _post cfg txt mention w = (Raise e, w)) ∨
  (∃ p, text p = txt ∧ _post cfg txt mention w = requests_post p w).
Proof.
  unfold _post. rewrite py_bind.
  assert (Hsend : ∀ p, text p = txt →
            ∃ p', text p' = txt ∧ requests_post p w = requests_post p' w) by eauto.
  destruct mention as [m|]; [|right; by apply Hsend].
  destruct (truthy m); [|right; by apply Hsend].
  destruct (subscript m key_name) as [nm|e]; simpl; [|left; by eexists].
  destruct (decide _); [|right; by apply Hsend].
  destruct (subscript m key_user_id) as [uid|e]; simpl; [|left; by eexists].
  right. by apply Hsend.
Qed.

End Steps.

(** * The handlers on a queue *)

Section OnQueues.
Context `{Runtime} (cfg : Config).

Lemma of_queue_snoc q e : PList ((of_entry <$> q) ++ [of_entry e]) = of_queue (q ++ [e]).
Proof. unfold of_queue. by rewrite fmap_app. Qed.

Lemma iter_queue q : py_iter (of_queue q) = Ret (of_entry <$> q).
Proof. reflexivity. Qed.

Lemma len_queue q : py_len (of_queue q) = Ret (length q).
Proof. unfold of_queue. simpl. by rewrite length_fmap. Qed.

Lemma append_queue q e : py_append (of_queue q) (of_entry e) = Ret (of_queue (q ++ [e])).
Proof. unfold py_append, of_queue at 1. by rewrite of_queue_snoc. Qed.

Lemma pop_queue e q : py_pop0 (of_queue (e :: q)) = Ret (of_entry e, of_queue q).
Proof. reflexivity. Qed.

Lemma of_entry_inj : Inj (=) (=) of_entry.
Proof. intros [u1 n1] [u2 n2] E. unfold of_entry in E. simpl in E. congruence. Qed.

Lemma of_queue_inj : Inj (=) (=) of_queue.
Proof.
  intros q1 q2 E. unfold of_queue in E. injection E as E.
  revert q2 E. induction q1 as [|e q1 IH]; intros [|e' q2] E; try done.
  rewrite !fmap_cons in E.
  f_equal; [apply of_entry_inj; congruence | apply IH; congruence].
Qed.

Lemma subscript_user_id e : subscript (of_entry e) key_user_id = Ret (PStr (user_id e)).
Proof. reflexivity. Qed.

Lemma subscript_name e : subscript (of_entry e) key_name = Ret (PStr (name e)).
Proof. reflexivity. Qed.

Lemma any_queue uid (q : Queue) :
  py_any (λ e, v ← subscript e key_user_id; mret (eq_str v uid)) (of_entry <$> q)
  = Ret (existsb (λ e, bool_decide (user_id e = uid)) q).
Proof.
  induction q as [|e q IH]; [done|].
  rewrite fmap_cons. cbn [py_any existsb]. rewrite subscript_user_id.
  cbn [mbind Result_bind mret Result_ret eq_str].
  destruct (bool_decide (user_id e = uid)); [done|]. by rewrite IH.
Qed.

Lemma filter_queue uid (q : Queue) :
  py_filter (λ e, v ← subscript e key_user_id; mret (negb (eq_str v uid))) (of_entry <$> q)
  = Ret (of_entry <$> filter (λ e, user_id e ≠ uid) q).
Proof.
  induction q as [|e q IH]; [done|].
  rewrite fmap_cons. cbn [py_filter]. rewrite subscript_user_id.
  cbn [mbind Result_bind mret Result_ret eq_str]. rewrite IH.
  rewrite filter_cons. destruct (decide (user_id e ≠ uid)) as [Hne|Heq].
  - by rewrite bool_decide_eq_false_2.
  - rewrite bool_decide_eq_true_2; [done|]. by destruct (decide (user_id e = uid)).
Qed.

Lemma enumerate_queue (q : Queue) : ∀ i,
  py_enumerate (λ i e, v ← subscript e key_name;
                       mret (str_of_nat (i + 1) ++ u ". " ++ format_value v))
    i (of_entry <$> q)
  = Ret (imap (λ j e, str_of_nat (i + j + 1) ++ u ". " ++ name e) q).
Proof.
  induction q as [|e q IH]; intros i; [done|].
  rewrite fmap_cons. cbn [py_enumerate imap]. rewrite subscript_name.
  cbn [mbind Result_bind mret Result_ret format_value]. rewrite IH.
  rewrite Nat.add_0_r. do 2 f_equal. apply imap_ext. intros j x _. simpl.
  do 2 f_equal. lia.
Qed.

Lemma truthy_queue (q : Queue) : truthy (of_queue q) = match q with [] => false | _ => true end.
Proof. by destruct q. Qed.

(** [_post] with an entry for a mention. *)
Lemma ping_run text m w :
  _post cfg text (Some (of_entry m)) w =
  (match net w with false :: _ => Raise HTTPError | _ => Ret () end,
   mkWorld (files w) (outbox w ++ [_post_payload cfg text (Some m)]) (disk w) (tail (net w))).
Proof.
  unfold _post. rewrite py_bind.
  change (truthy (of_entry m)) with true. cbv iota.
  rewrite subscript_name. cbn [mbind Result_bind format_value].
  unfold _post_payload. cbv zeta.
  destruct (decide (find text (u "@" ++ name m) ≠ (-1)%Z)).
  - rewrite subscript_user_id. apply requests_post_run.
  - apply requests_post_run.
Qed.

Lemma ping_online text m w :
  online w →
  _post cfg text (Some (of_entry m)) w =
  (Ret (), mkWorld (files w) (outbox w ++ [_post_payload cfg text (Some m)]) (disk w) (tail (net w))).
Proof.
  intros Ho. rewrite ping_run. unfold online in Ho.
  by destruct (net w) as [|[] ?].
Qed.

Lemma ping_offline text m w :
  ¬ online w →
  _post cfg text (Some (of_entry m)) w =
  (Raise HTTPError,
   mkWorld (files w) (outbox w ++ [_post_payload cfg text (Some m)]) (disk w) (tail (net w))).
Proof.
  intros Ho. rewrite ping_run. unfold online in Ho.
  destruct (net w) as [|[] ?]; simpl in *; try done; by destruct Ho.
Qed.

(** On a queue the handlers do what their annotations say. *)
Lemma signup_on_queue w w1 q uid nm :
  _load_queue cfg w = (Ret (of_queue q), w1) →
  _signup cfg uid nm w =
  (if existsb (λ e, bool_decide (user_id e = uid)) q then _post cfg (msg_already nm) None
   else _save_queue cfg (of_queue (q ++ [mkEntry uid nm]));;
        _post cfg (msg_joined nm) None) w1.
Proof.
  intros Hl. unfold _signup. rewrite (bind_ret _ _ _ _ _ Hl), py_bind, iter_queue.
  cbn [mbind Result_bind]. rewrite any_queue.
  destruct (existsb _ q); [done|].
  by rewrite py_bind, append_queue.
Qed.

Lemma signout_on_queue w w1 q uid nm :
  _load_queue cfg w = (Ret (of_queue q), w1) →
  _signout cfg uid nm w =
  (if decide (length (filter (λ e, user_id e ≠ uid) q) = length q)
   then _post cfg (msg_absent nm) None
   else _save_queue cfg (of_queue (filter (λ e, user_id e ≠ uid) q));;
        _post cfg (msg_left nm) None) w1.
Proof.
  intros Hl. unfold _signout. rewrite (bind_ret _ _ _ _ _ Hl), py_bind, iter_queue.
  cbn [mbind Result_bind]. rewrite filter_queue.
  by rewrite py_bind, len_queue, length_fmap.
Qed.

Lemma show_queue_on_queue w w1 q :
  _load_queue cfg w = (Ret (of_queue q), w1) →
  _show_queue cfg w =
  match q with
  | [] => _post cfg msg_empty None w1
  | _ => _post cfg (msg_listing (join [NL]
           (imap (λ i e, str_of_nat (i + 1) ++ u ". " ++ name e) q))) None w1
  end.
Proof.
  intros Hl. unfold _show_queue. rewrite (bind_ret _ _ _ _ _ Hl), truthy_queue.
  destruct q as [|e q]; [done|]. cbn [negb]. rewrite py_bind, iter_queue.
  cbn [mbind Result_bind]. by rewrite enumerate_queue.
Qed.

Lemma daily_ping_on_queue w w1 q :
  _load_queue cfg w = (Ret (of_queue q), w1) →
  _daily_ping cfg w =
  match q with
  | [] => (Ret (), w1)
  | current :: q =>
      (_post cfg (msg_turn (name current)) (Some (of_entry current));;
       _save_queue cfg (of_queue (q ++ [current]))) w1
  end.
Proof.
  intros Hl. unfold _daily_ping. rewrite (bind_ret _ _ _ _ _ Hl), truthy_queue.
  destruct q as [|e q]; [done|]. cbn [negb]. rewrite py_bind, pop_queue.
  rewrite py_bind, subscript_name. cbn [format_value].
  unfold mbind at 1 3, M_bind at 1 3.
  destruct (_post cfg _ _ w1) as [[[]|x] w2]; [|done].
  by rewrite py_bind, append_queue.
Qed.

End OnQueues.

(** * The queue engine *)

Section Engine.
Context `{Runtime} (cfg : Config).

Lemma existsb_ids uid (q : Queue) :
  existsb (λ e, bool_decide (user_id e = uid)) q = true ↔ uid ∈ ids q.
Proof.
  unfold ids. rewrite existsb_exists, list_elem_of_fmap.
  split.
  - intros (e & He & Hb). apply bool_decide_eq_true in Hb.
    exists e. split; [done|]. by apply list_elem_of_In.
  - intros (e & -> & He). exists e. split; [by apply list_elem_of_In|].
    by apply bool_decide_eq_true.
Qed.

Lemma filter_other_length uid (q : Queue) :
  length (filter (λ e, user_id e ≠ uid) q) = length q ↔ uid ∉ ids q.
Proof.
  unfold ids. induction q as [|e q IH].
  - split; [|done]. intros _. apply not_elem_of_nil.
  - rewrite filter_cons, fmap_cons, not_elem_of_cons.
    pose proof (length_filter (λ e, user_id e ≠ uid) q) as Hle.
    destruct (decide (user_id e ≠ uid)) as [Hne|Heq]; simpl.
    + rewrite <- IH. split; [intros ?; split; [done|lia] | intros [_ ?]; lia].
    + split; [lia|]. intros [Hne _]. destruct Heq. done.
Qed.

Lemma filter_other_id uid (q : Queue) :
  uid ∉ ids q → filter (λ e, user_id e ≠ uid) q = q.
Proof.
  unfold ids. induction q as [|e q IH]; [done|].
  rewrite fmap_cons, not_elem_of_cons. intros [Hne Hq].
  rewrite filter_cons, decide_True by done. by rewrite IH.
Qed.


Lemma msg_already_not_joined nm : msg_already nm ≠ msg_joined nm.
Proof. unfold msg_already, msg_joined. intros E. by apply app_inv_head in E. Qed.

Lemma msg_absent_not_left nm : msg_absent nm ≠ msg_left nm.
Proof. unfold msg_absent, msg_left. intros E. by apply app_inv_head in E. Qed.

Lemma signup_present w q uid nm :
  calm w → stored cfg w q → uid ∈ ids q →
  _signup cfg uid nm w = _post cfg (msg_already nm) None w.
Proof.
  intros Hc Hs Hin.
  rewrite (signup_on_queue cfg _ _ _ _ _ (load_stored cfg w q Hc Hs)).
  apply existsb_ids in Hin. by rewrite Hin.
Qed.

Lemma signup_absent w q uid nm :
  calm w → named cfg → stored cfg w q → uid ∉ ids q →
  ∃ w1, written cfg w1 (q ++ [mkEntry uid nm]) ∧ outbox w1 = outbox w ∧
        net w1 = net w ∧
        _signup cfg uid nm w = _post cfg (msg_joined nm) None w1.
Proof.
  intros Hc Hn Hs Hin.
  rewrite (signup_on_queue cfg _ _ _ _ _ (load_stored cfg w q Hc Hs)).
  destruct (existsb _ q) eqn:E; [by apply existsb_ids in E|].
  destruct (save_calm cfg (of_queue (q ++ [mkEntry uid nm])) w Hc Hn)
    as (w1 & Hsave & Hw & Ho & Hnet & _).
  exists w1. by rewrite (bind_ret _ _ _ _ _ Hsave).
Qed.

Lemma signout_absent w q uid nm :
  calm w → stored cfg w q → uid ∉ ids q →
  _signout cfg uid nm w = _post cfg (msg_absent nm) None w.
Proof.
  intros Hc Hs Hin.
  rewrite (signout_on_queue cfg _ _ _ _ _ (load_stored cfg w q Hc Hs)).
  rewrite decide_True; [done|]. by apply filter_other_length.
Qed.

Lemma signout_present w q uid nm :
  calm w → named cfg → stored cfg w q → uid ∈ ids q →
  ∃ w1, written cfg w1 (filter (λ e, user_id e ≠ uid) q) ∧ outbox w1 = outbox w ∧
        net w1 = net w ∧
        _signout cfg uid nm w = _post cfg (msg_left nm) None w1.
Proof.
  intros Hc Hn Hs Hin.
  rewrite (signout_on_queue cfg _ _ _ _ _ (load_stored cfg w q Hc Hs)).
  rewrite decide_False.
  2:{ intros E. by apply filter_other_length in E. }
  destruct (save_calm cfg (of_queue (filter (λ e, user_id e ≠ uid) q)) w Hc Hn)
    as (w1 & Hsave & Hw & Ho & Hnet & _).
  exists w1. by rewrite (bind_ret _ _ _ _ _ Hsave).
Qed.

End Engine.

(** * Rotation, sign-up and sign-out *)

Section EngineClaims.
Context `{Runtime} (cfg : Config).

Lemma rotate_front (front : Entry) rest : rest ++ [front] = rotate 1 (front :: rest).
Proof.
  unfold rotate. destruct rest as [|e rest]; [done|].
  change (length (front :: e :: rest)) with (S (S (length rest))).
  rewrite Nat.mod_small by lia. done.
Qed.

Lemma filter_remove_one uid (q : Queue) :
  NoDup (ids q) → uid ∈ ids q →
  ∃ l1 e l2, q = l1 ++ e :: l2 ∧ user_id e = uid ∧
             filter (λ e, user_id e ≠ uid) q = l1 ++ l2.
Proof.
  unfold ids. intros Hnd Hin.
  apply list_elem_of_fmap in Hin as (e & -> & He).
  apply list_elem_of_split in He as (l1 & l2 & ->).
  rewrite fmap_app, fmap_cons in Hnd.
  apply NoDup_app in Hnd as (_ & Hl1 & Hnd). apply NoDup_cons in Hnd as [Hl2 _].
  exists l1, e, l2. split; [done|]. split; [done|].
  rewrite filter_app, filter_cons, decide_False by (intros ?; done).
  rewrite !filter_other_id; [done|done|].
  intros Hin. apply (Hl1 _ Hin). left.
Qed.

(** C1. [_daily_ping] is one left rotation of the stored queue.  With
    the file system and GroupMe answering: on an empty queue nothing is
    posted and the world is left as it was; on a queue [front :: rest]
    the ping goes out to [front] (entry as stored, name not refreshed)
    and the queue file is rewritten with [rest ++ [front]], which has
    the length and the identities of the queue it came from. *)
Theorem daily_ping_rotates w q :
  calm w → online w → named cfg → stored cfg w q →
  match q with
  | [] => _daily_ping cfg w = (Ret (), w)
  | front :: rest =>
      ∃ w', _daily_ping cfg w = (Ret (), w') ∧
        written cfg w' (rest ++ [front]) ∧
        outbox w' = outbox w ++ [_post_payload cfg (msg_turn (name front)) (Some front)] ∧
        rest ++ [front] = rotate 1 q ∧
        length (rest ++ [front]) = length q ∧
        ids (rest ++ [front]) ≡ₚ ids q
  end.
Proof.
  intros Hc Ho Hn Hs.
  rewrite (daily_ping_on_queue cfg _ _ _ (load_stored cfg w q Hc Hs)).
  destruct q as [|front rest]; [done|].
  rewrite (bind_ret _ _ _ _ _ (ping_online cfg _ _ w Ho)).
  match goal with |- context [_save_queue cfg ?q' ?w1] =>
    destruct (save_calm cfg q' w1) as (w' & Hsave & Hw & Hob & _); [done..|] end.
  exists w'. split; [done|]. split; [done|]. split; [done|].
  split; [apply rotate_front|]. split.
  - rewrite length_app. simpl. lia.
  - unfold ids. rewrite fmap_app, fmap_cons. simpl.
    by rewrite Permutation_app_comm.
Qed.

(** C3. [_signup]: when an entry with the identity is stored, no file
    is touched (the stored name stays) and the reply is the "already in
    the queue" message; otherwise the queue file is rewritten with the
    new entry at the back and the reply is the "joined" message.  The
    two replies differ. *)
Theorem signup_outcomes w q uid nm :
  calm w → named cfg → stored cfg w q →
  let w' := (_signup cfg uid nm w).2 in
  (uid ∈ ids q →
     files w' = files w ∧
     outbox w' = outbox w ++ [_post_payload cfg (msg_already nm) None]) ∧
  (uid ∉ ids q →
     written cfg w' (q ++ [mkEntry uid nm]) ∧
     outbox w' = outbox w ++ [_post_payload cfg (msg_joined nm) None]) ∧
  (online w → (_signup cfg uid nm w).1 = Ret ()) ∧
  msg_already nm ≠ msg_joined nm.
Proof.
  intros Hc Hn Hs. simpl. split; [|split; [|split]].
  - intros Hin. rewrite (signup_present cfg w q uid nm) by done.
    by rewrite post_run.
  - intros Hin.
    destruct (signup_absent cfg w q uid nm) as (w1 & Hw & Hob & Hnet & ->); [done..|].
    rewrite post_run. simpl. by rewrite Hob.
  - intros Hon. destruct (decide (uid ∈ ids q)) as [Hin|Hin].
    + rewrite (signup_present cfg w q uid nm) by done. by rewrite post_online.
    + destruct (signup_absent cfg w q uid nm) as (w1 & Hw & Hob & Hnet & ->); [done..|].
      rewrite post_online; [done|]. unfold online. by rewrite Hnet.
  - apply msg_already_not_joined.
Qed.

(** C4. [_signout]: when no stored entry has the identity, no file is
    touched and the reply is the "weren't in the queue" message;
    otherwise the queue file is rewritten without the entries of that
    identity, the others in the order they had, and the reply is the
    "left" message.  In a queue without duplicate identities this takes
    out exactly one entry. *)
Theorem signout_outcomes w q uid nm :
  calm w → named cfg → stored cfg w q →
  let w' := (_signout cfg uid nm w).2 in
  (uid ∉ ids q →
     files w' = files w ∧
     outbox w' = outbox w ++ [_post_payload cfg (msg_absent nm) None]) ∧
  (uid ∈ ids q →
     ∃ q', written cfg w' q' ∧
       outbox w' = outbox w ++ [_post_payload cfg (msg_left nm) None] ∧
       q' `sublist_of` q ∧
       (∀ e, e ∈ q' ↔ e ∈ q ∧ user_id e ≠ uid) ∧
       (NoDup (ids q) →
        ∃ l1 e l2, q = l1 ++ e :: l2 ∧ user_id e = uid ∧ q' = l1 ++ l2)) ∧
  (online w → (_signout cfg uid nm w).1 = Ret ()) ∧
  msg_absent nm ≠ msg_left nm.
Proof.
  intros Hc Hn Hs. simpl. split; [|split; [|split]].
  - intros Hin. rewrite (signout_absent cfg w q uid nm) by done.
    by rewrite post_run.
  - intros Hin.
    destruct (signout_present cfg w q uid nm) as (w1 & Hw & Hob & Hnet & ->); [done..|].
    exists (filter (λ e, user_id e ≠ uid) q).
    rewrite post_run. simpl. rewrite Hob.
    split; [done|]. split; [done|]. split; [apply sublist_filter|].
    split.
    + intros e. rewrite list_elem_of_filter. tauto.
    + intros Hnd. by apply filter_remove_one.
  - intros Hon. destruct (decide (uid ∈ ids q)) as [Hin|Hin].
    + destruct (signout_present cfg w q uid nm) as (w1 & Hw & Hob & Hnet & ->); [done..|].
      rewrite post_online; [done|]. unfold online. by rewrite Hnet.
    + rewrite (signout_absent cfg w q uid nm) by done. by rewrite post_online.
  - apply msg_absent_not_left.
Qed.

End EngineClaims.

(** * The deduplication invariant *)

Section Invariant.
Context `{Runtime} (cfg : Config).






End Invariant.


(** * The store *)

Section Store.
Context `{Runtime} (cfg : Config).

(** C7, as the code has it.  [_load_queue] gives the empty list when
    there is no queue file.  When there is one it raises if the text
    is not JSON, with the decoder's exception when the file can be
    read; and a text that is JSON it returns as decoded, whatever the
    value is: nothing checks that it is a list of entries. *)
Theorem load_queue_outcomes w :
  (files w !! QUEUE_FILE cfg = None → _load_queue cfg w = (Ret (of_queue []), w)) ∧
  (∀ t, files w !! QUEUE_FILE cfg = Some t →
     (json_loads t = None →
        (∃ e w', _load_queue cfg w = (Raise e, w')) ∧
        (calm w → _load_queue cfg w = (Raise JSONDecodeError, w))) ∧
     (∀ v, json_loads t = Some v → calm w → _load_queue cfg w = (Ret v, w))).
Proof.
  split.
  - intros E. apply load_stored_missing. done.
  - intros t E. split.
    + intros J. split.
      * destruct (load_cases cfg w) as (w1 & [[e He]|(q & _ & Hs)] & _); [eauto|].
        unfold holds in Hs. rewrite E in Hs. congruence.
      * intros Hc. destruct w as [fs ob dk nt]. unfold calm in Hc. simpl in *. subst dk.
        run. rewrite bool_decide_eq_true_2 by eauto. simpl. rewrite E. simpl.
        by rewrite J.
    + intros v J Hc. apply load_holds; [done|]. unfold holds. by rewrite E.
Qed.

(** A save followed by a load gives back the value that was saved,
    wherever the decoder reads back what the encoder wrote for it. *)
Lemma save_load_codec v w :
  json_loads (json_dumps v) = Some v →
  (∀ w', _save_queue cfg v w = (Ret (), w') → calm w' →
         _load_queue cfg w' = (Ret v, w')) ∧
  (calm w → named cfg →
   ∃ w', _save_queue cfg v w = (Ret (), w') ∧ _load_queue cfg w' = (Ret v, w')).
Proof.
  intros Hrt.
  assert (Hread : ∀ w', dumped cfg w' v → calm w' → _load_queue cfg w' = (Ret v, w')).
  { intros w' Hw Hc. apply load_holds; [done|].
    unfold holds, dumped in *. by rewrite Hw. }
  split.
  - intros w' Hsave Hc.
    destruct (save_cases cfg v w) as (w1 & [[e He]|[Hs Hw]] & _); [congruence|].
    rewrite Hsave in Hs. injection Hs as ->. by apply Hread.
  - intros Hc Hn.
    destruct (save_calm cfg v w Hc Hn) as (w' & Hsave & Hw & _ & _ & Hc').
    exists w'. split; [done|]. by apply Hread.
Qed.

End Store.

Section StoreOnCPython.
Existing Instance ref_runtime.
Context (cfg : Config).

(** C9, as the code has it.  With CPython's [json]: saving a queue
    and loading it again gives the queue back, entry for entry and in
    order, when the identities and names hold no surrogate pair
    written as two characters.  Whenever [_save_queue] returns, a load
    that can read the file returns the saved queue; and with no
    file-system fault the save does return. *)
Theorem save_then_load q w :
  queue_text_ok q →
  (∀ w', _save_queue cfg (of_queue q) w = (Ret (), w') → calm w' →
         _load_queue cfg w' = (Ret (of_queue q), w')) ∧
  (calm w → named cfg →
   ∃ w', _save_queue cfg (of_queue q) w = (Ret (), w') ∧
         _load_queue cfg w' = (Ret (of_queue q), w')).
Proof. intros Hok. apply save_load_codec. by apply loads_dumps_queue. Qed.

End StoreOnCPython.

(** * Mentions *)

Section Mentions.
Context `{Runtime} (cfg : Config).

Lemma is_prefix_take p s : is_prefix p s = true ↔ take (length p) s = p.
Proof.
  revert s. induction p as [|a p IH]; intros s; [done|].
  destruct s as [|b s]; simpl; [done|].
  rewrite andb_true_iff, N.eqb_eq, IH. split.
  - by intros [-> ->].
  - intros E. by injection E as -> ->.
Qed.

Lemma occurs_at_0 sub txt : occurs_at sub txt 0 ↔ is_prefix sub txt = true.
Proof. unfold occurs_at. by rewrite is_prefix_take. Qed.

Lemma occurs_at_S sub c txt k : occurs_at sub (c :: txt) (S k) ↔ occurs_at sub txt k.
Proof. done. Qed.

Lemma find_from_spec sub txt i :
  (find_from i txt sub = (-1)%Z ∧ ∀ k, ¬ occurs_at sub txt k) ∨
  (∃ k, find_from i txt sub = (i + Z.of_nat k)%Z ∧ first_occurrence sub txt k).
Proof.
  revert i. induction txt as [|c txt IH]; intros i; simpl.
  - destruct (is_prefix sub []) eqn:E.
    + right. exists 0%nat. split; [lia|]. split; [by apply occurs_at_0|]. lia.
    + left. split; [done|]. intros k Hk. unfold occurs_at in Hk.
      rewrite drop_nil, take_nil in Hk. subst sub. done.
  - destruct (is_prefix sub (c :: txt)) eqn:E.
    + right. exists 0%nat. split; [lia|]. split; [by apply occurs_at_0|]. lia.
    + destruct (IH (i + 1)%Z) as [[Hf Hno]|(k & Hf & Hk & Hfirst)].
      * left. split; [done|]. intros [|k] Hk.
        -- apply occurs_at_0 in Hk. congruence.
        -- apply occurs_at_S in Hk. by apply (Hno k).
      * right. exists (S k). split; [lia|]. split; [by apply occurs_at_S|].
        intros [|j] Hj Hocc.
        -- apply occurs_at_0 in Hocc. congruence.
        -- apply occurs_at_S in Hocc. apply (Hfirst j); [lia|done].
Qed.

Lemma first_occurrence_unique sub txt i j :
  first_occurrence sub txt i → first_occurrence sub txt j → i = j.
Proof.
  intros [Hi Hfi] [Hj Hfj].
  destruct (Nat.lt_trichotomy i j) as [Hlt|[->|Hlt]]; [|done|].
  - by destruct (Hfj i Hlt).
  - by destruct (Hfi j Hlt).
Qed.

(** C10. The mention [_post] attaches for an entry: when ["@" + name]
    occurs in the text, the post carries one mention of the user whose
    locus is the index of the first occurrence and the length of that
    tag; when it does not occur, the post goes out with no
    attachment. *)
Theorem post_mention txt m w :
  let tag := u "@" ++ name m in
  let p := _post_payload cfg txt (Some m) in
  outbox (_post cfg txt (Some (of_entry m)) w).2 = outbox w ++ [p] ∧
  text p = txt ∧
  (∀ i, first_occurrence tag txt i →
     attachments p =
     Some [mkAttachment (u "mentions") [PStr (user_id m)]
             [(Z.of_nat i, Z.of_nat (length tag))]]) ∧
  ((∀ i, ¬ occurs_at tag txt i) → attachments p = None).
Proof.
  simpl. split; [by rewrite ping_run|]. split; [done|].
  unfold find.
  destruct (find_from_spec (u "@" ++ name m) txt 0) as [[Hf Hno]|(k & Hf & Hk)].
  - split.
    + intros i [Hi _]. by destruct (Hno i).
    + intros _. simpl in Hf. rewrite Hf. by rewrite decide_False by (intros ?; done).
  - split.
    + intros i Hi. rewrite (first_occurrence_unique _ _ _ _ Hi Hk).
      simpl in Hf. rewrite Hf. by rewrite decide_True by lia.
    + intros Hno. destruct Hk as [Hk _]. by destruct (Hno k).
Qed.

End Mentions.

(** * Replies and saves *)

Section Ordering.
Context `{Runtime} (cfg : Config).

(** Where the reply stands relative to the save, handler by handler.
    [_signup] and [_signout] post their
    success message only once the changed queue is in the queue file:
    whatever the queue file holds and whatever the file system and the
    network do, either nothing was posted, or the "already"/"weren't"
    reply was posted and no file was touched, or the success reply was
    posted and the queue file holds the changed list.  [_daily_ping]
    goes the other way round: it touches the files only after its ping
    was posted and accepted. *)
Theorem replies_and_saves w uid nm :
  (let w' := (_signup cfg uid nm w).2 in
   outbox w' = outbox w
   ∨ (outbox w' = outbox w ++ [_post_payload cfg (msg_already nm) None]
      ∧ files w' = files w)
   ∨ (∃ l, holds cfg w (PList l)
      ∧ outbox w' = outbox w ++ [_post_payload cfg (msg_joined nm) None]
      ∧ dumped cfg w' (PList (l ++ [of_entry (mkEntry uid nm)])))) ∧
  (let w' := (_signout cfg uid nm w).2 in
   outbox w' = outbox w
   ∨ (outbox w' = outbox w ++ [_post_payload cfg (msg_absent nm) None]
      ∧ files w' = files w)
   ∨ (∃ v new_q, holds cfg w v
      ∧ outbox w' = outbox w ++ [_post_payload cfg (msg_left nm) None]
      ∧ dumped cfg w' (PList new_q)
      ∧ ∀ q, v = of_queue q → PList new_q = of_queue (filter (λ e, user_id e ≠ uid) q))) ∧
  (let w' := (_daily_ping cfg w).2 in
   files w' = files w
   ∨ (∃ current rest p, holds cfg w (PList (current :: rest)) ∧ online w
      ∧ outbox w' = outbox w ++ [p]
      ∧ ∀ front, current = of_entry front →
          p = _post_payload cfg (msg_turn (name front)) (Some front))).
Proof.
  simpl. split; [|split].
  - unfold _signup.
    destruct (load_cases cfg w) as (w1 & [[e He]|(v & Hv & Hs)] & Hf & Hob & Hnet).
    { rewrite (bind_raise _ _ _ _ _ He). by left. }
    rewrite (bind_ret _ _ _ _ _ Hv), py_bind.
    destruct (items ← py_iter v; py_any _ items) as [[]|e]; [| |by left].
    { right; left. rewrite post_run. simpl. by rewrite Hob, Hf. }
    rewrite py_bind. destruct v as [| | | | |l|]; try by left. cbn [py_append].
    destruct (save_cases cfg (PList (l ++ [of_entry (mkEntry uid nm)])) w1)
      as (w2 & [[e He]|[Hsave Hw]] & Hob2 & Hnet2).
    { rewrite (bind_raise _ _ _ _ _ He). left. simpl. congruence. }
    rewrite (bind_ret _ _ _ _ _ Hsave). right; right. exists l.
    rewrite post_run. simpl. by rewrite Hob2, Hob.
  - unfold _signout.
    destruct (load_cases cfg w) as (w1 & [[e He]|(v & Hv & Hs)] & Hf & Hob & Hnet).
    { rewrite (bind_raise _ _ _ _ _ He). by left. }
    rewrite (bind_ret _ _ _ _ _ Hv), py_bind.
    destruct (items ← py_iter v; py_filter _ items) as [new_q|e] eqn:Hfil; [|by left].
    rewrite py_bind. destruct (py_len v) as [n|e]; [|by left].
    destruct (decide _).
    { right; left. rewrite post_run. simpl. by rewrite Hob, Hf. }
    destruct (save_cases cfg (PList new_q) w1)
      as (w2 & [[e He]|[Hsave Hw]] & Hob2 & Hnet2).
    { rewrite (bind_raise _ _ _ _ _ He). left. simpl. congruence. }
    rewrite (bind_ret _ _ _ _ _ Hsave). right; right. exists v, new_q.
    rewrite post_run. simpl. rewrite Hob2, Hob.
    split; [done|]. split; [done|]. split; [done|].
    intros q ->. rewrite iter_queue in Hfil. cbn [mbind Result_bind] in Hfil.
    rewrite filter_queue in Hfil. by injection Hfil as <-.
  - unfold _daily_ping.
    destruct (load_cases cfg w) as (w1 & [[e He]|(v & Hv & Hs)] & Hf & Hob & Hnet).
    { rewrite (bind_raise _ _ _ _ _ He). by left. }
    rewrite (bind_ret _ _ _ _ _ Hv).
    destruct (negb (truthy v)); [by left|].
    rewrite py_bind. destruct v as [| | | | |[|current rest]|]; try by left.
    cbn [py_pop0]. rewrite py_bind.
    destruct (subscript current key_name) as [nm'|e] eqn:Hname; [|by left].
    destruct (post_cases cfg (msg_turn (format_value nm')) (Some current) w1)
      as [[e Hpost]|(p & Hp & Hpost)].
    { rewrite (bind_raise _ _ _ _ _ Hpost). by left. }
    rewrite requests_post_run in Hpost.
    assert (Hfront : ∀ front, current = of_entry front →
              p = _post_payload cfg (msg_turn (name front)) (Some front)).
    { intros front ->. rewrite subscript_name in Hname. injection Hname as <-.
      rewrite ping_run in Hpost. injection Hpost as Hpost.
      by apply app_inj_tail in Hpost as [_ ?]. }
    destruct (decide (online w1)) as [Ho|Ho].
    + assert (Hsent : _post cfg (msg_turn (format_value nm')) (Some current) w1 =
                (Ret (), mkWorld (files w1) (outbox w1 ++ [p]) (disk w1) (tail (net w1)))).
      { rewrite Hpost. unfold online in Ho. by destruct (net w1) as [|[] ?]. }
      rewrite (bind_ret _ _ _ _ _ Hsent).
      right. exists current, rest, p. split; [done|].
      split; [unfold online in *; by rewrite <- Hnet|].
      split; [|done].
      rewrite py_bind. cbn [py_append].
      match goal with |- context [_save_queue cfg ?q' ?w2] =>
        destruct (save_cases cfg q' w2) as (w3 & [[e ->]| [-> _]] & Hob3 & _) end;
        simpl; rewrite Hob3; simpl; by rewrite Hob.
    + assert (Hsent : _post cfg (msg_turn (format_value nm')) (Some current) w1 =
                (Raise HTTPError,
                 mkWorld (files w1) (outbox w1 ++ [p]) (disk w1) (tail (net w1)))).
      { rewrite Hpost. unfold online in Ho.
        destruct (net w1) as [|[] ?]; simpl in *; try done; by destruct Ho. }
      rewrite (bind_raise _ _ _ _ _ Hsent). by left.
Qed.

End Ordering.

(** * The dispatcher *)

Section Dispatch.
Context `{Runtime} (cfg : Config).

Lemma lstrip_ascii s : Forall is_ascii s → Forall is_ascii (lstrip s).
Proof.
  induction 1 as [|c s Hc Hs IH]; simpl; [done|].
  destruct (is_space c); [done|]. by constructor.
Qed.

Lemma strip_ascii s : Forall is_ascii s → Forall is_ascii (strip s).
Proof.
  intros Hs. unfold strip, rstrip.
  by apply Forall_reverse, lstrip_ascii, Forall_reverse, lstrip_ascii.
Qed.

(** C6, as the code has it.  An event whose sender type is not
    ["user"] is answered [OK] with nothing done.  For a user's event
    the text is trimmed of surrounding white space and lowered; the
    four tokens run the four handlers and every other text runs
    nothing.  On ASCII text the lowering is that of the letters, so the
    tokens are matched whatever their case. *)
Theorem callback_dispatch data w :
  let t := str_lower (strip (or_default (ev_text data) [])) in
  let uid := sender_id data in
  let nm := or_default (ev_name data) (u "Unknown") in
  (sender_type data ≠ Some (u "user") → callback cfg data w = (Ret OK_200, w)) ∧
  (sender_type data = Some (u "user") →
     (t = u "!signup" →
        callback cfg data w = (_signup cfg uid nm;; mret OK_200) w) ∧
     (t = u "!signout" →
        callback cfg data w = (_signout cfg uid nm;; mret OK_200) w) ∧
     (t = u "!queue" → callback cfg data w = (_show_queue cfg;; mret OK_200) w) ∧
     (t = u "!help" → callback cfg data w = (_help cfg;; mret OK_200) w) ∧
     (t ∉ commands → callback cfg data w = (Ret OK_200, w))) ∧
  (str_lower_ascii →
   ∀ s, ev_text data = Some s → Forall is_ascii s → t = ascii_lower <$> strip s).
Proof.
  simpl. split; [|split].
  - intros Hs. unfold callback. by rewrite decide_True.
  - intros Hs. unfold callback. rewrite decide_False by (by intros []).
    split; [|split; [|split; [|split]]].
    + intros ->. by rewrite decide_True.
    + intros ->. rewrite decide_False by done. by rewrite decide_True.
    + intros ->. rewrite !decide_False by done. by rewrite decide_True.
    + intros ->. rewrite !decide_False by done. by rewrite decide_True.
    + unfold commands. rewrite !not_elem_of_cons. intros (H1 & H2 & H3 & H4 & _).
      by rewrite !decide_False.
  - intros Hlow s -> Hs.
    replace (or_default (Some s) []) with s by (by destruct s).
    apply Hlow. by apply strip_ascii.
Qed.

End Dispatch.


(** * Runs on the reference runtime *)

Section Runs.
Existing Instance ref_runtime.

Lemma not_in_commands (s : str) :
  s ≠ u "!signup" → s ≠ u "!signout" → s ≠ u "!queue" → s ≠ u "!help" →
  s ∉ commands.
Proof.
  intros. unfold commands. rewrite !not_elem_of_cons.
  repeat split; try done. apply not_elem_of_nil.
Qed.

(** The scenario of the specification: Ann, Bo and Cy sign up, the
    daily ping goes to Ann, Bo signs out, Ann signs up again. *)
Example scenario_abc :
  let chat :=
    [ _signup cfg0 (u "101") (u "Ann"); _signup cfg0 (u "102") (u "Bo");
      _signup cfg0 (u "103") (u "Cy") ] in
  let w3 := (run_all chat fresh_world).2 in
  let w4 := (_daily_ping cfg0 w3).2 in
  let w5 := (_signout cfg0 (u "102") (u "Bo") w4).2 in
  let w6 := (_signup cfg0 (u "101") (u "Annie") w5).2 in
  (_load_queue cfg0 w3).1 = Ret (of_queue [ann; bo; cy]) ∧
  (_load_queue cfg0 w4).1 = Ret (of_queue [bo; cy; ann]) ∧
  (_load_queue cfg0 w5).1 = Ret (of_queue [cy; ann]) ∧
  (_load_queue cfg0 w6).1 = Ret (of_queue [cy; ann]) ∧
  last (outbox w6) = Some (_post_payload cfg0 (msg_already (u "Annie")) None).
Proof. by vm_compute. Qed.

Example ping_payload_ann :
  _post_payload cfg0 (msg_turn (u "Ann")) (Some ann) =
  mkPayload (u "bot-1") (u "@Ann it’s your turn to share today’s song! 🎵")
    (Some [mkAttachment (u "mentions") [PStr (u "101")] [(0, 4)%Z]]).
Proof. by vm_compute. Qed.

Example listing_two :
  text <$> outbox (_show_queue cfg0 (world_with [ann; bo])).2 =
  [u "Current Song‑of‑the‑Day queue:" ++ [NL] ++ u "1. Ann" ++ [NL] ++ u "2. Bo"].
Proof. by vm_compute. Qed.

Lemma daily_ping_rotates_witness :
  calm (world_with [ann; bo; cy]) ∧ online (world_with [ann; bo; cy]) ∧
  named cfg0 ∧ stored cfg0 (world_with [ann; bo; cy]) [ann; bo; cy] ∧
  ∃ w', _daily_ping cfg0 (world_with [ann; bo; cy]) = (Ret (), w') ∧
        written cfg0 w' [bo; cy; ann] ∧
        outbox w' = [_post_payload cfg0 (msg_turn (u "Ann")) (Some ann)].
Proof.
  assert (Hc : calm (world_with [ann; bo; cy])) by reflexivity.
  assert (Ho : online (world_with [ann; bo; cy])) by (vm_compute; discriminate).
  assert (Hn : named cfg0) by (vm_compute; discriminate).
  assert (Hs : stored cfg0 (world_with [ann; bo; cy]) [ann; bo; cy])
    by (vm_compute; reflexivity).
  split; [exact Hc|]. split; [exact Ho|]. split; [exact Hn|]. split; [exact Hs|].
  destruct (daily_ping_rotates cfg0 _ _ Hc Ho Hn Hs) as (w' & Hr & Hw & Hob & _).
  exists w'. split; [exact Hr|]. split; [exact Hw|]. exact Hob.
Defined.

Lemma signup_outcomes_witness :
  calm (world_with [ann]) ∧ named cfg0 ∧ stored cfg0 (world_with [ann]) [ann] ∧
  written cfg0 (_signup cfg0 (u "102") (u "Bo") (world_with [ann])).2 [ann; bo] ∧
  files (_signup cfg0 (u "101") (u "Annie") (world_with [ann])).2
    = files (world_with [ann]).
Proof.
  assert (Hc : calm (world_with [ann])) by reflexivity.
  assert (Hn : named cfg0) by (vm_compute; discriminate).
  assert (Hs : stored cfg0 (world_with [ann]) [ann]) by (vm_compute; reflexivity).
  split; [exact Hc|]. split; [exact Hn|]. split; [exact Hs|]. split.
  - destruct (signup_outcomes cfg0 _ _ (u "102") (u "Bo") Hc Hn Hs) as (_ & Hnew & _).
    apply Hnew. vm_compute. intros Hin.
    apply list_elem_of_singleton in Hin. discriminate.
  - destruct (signup_outcomes cfg0 _ _ (u "101") (u "Annie") Hc Hn Hs) as (Hold & _).
    apply Hold. vm_compute. left.
Defined.

Lemma signout_outcomes_witness :
  calm (world_with [ann; bo; cy]) ∧ named cfg0 ∧
  stored cfg0 (world_with [ann; bo; cy]) [ann; bo; cy] ∧
  (∃ q', written cfg0 (_signout cfg0 (u "102") (u "Bo") (world_with [ann; bo; cy])).2 q'
         ∧ ∃ l1 e l2, [ann; bo; cy] = l1 ++ e :: l2 ∧ user_id e = u "102" ∧ q' = l1 ++ l2) ∧
  files (_signout cfg0 (u "104") (u "Di") (world_with [ann; bo; cy])).2
    = files (world_with [ann; bo; cy]).
Proof.
  assert (Hc : calm (world_with [ann; bo; cy])) by reflexivity.
  assert (Hn : named cfg0) by (vm_compute; discriminate).
  assert (Hs : stored cfg0 (world_with [ann; bo; cy]) [ann; bo; cy])
    by (vm_compute; reflexivity).
  split; [exact Hc|]. split; [exact Hn|]. split; [exact Hs|]. split.
  - destruct (signout_outcomes cfg0 _ _ (u "102") (u "Bo") Hc Hn Hs) as (_ & Hin & _).
    destruct Hin as (q' & Hw & _ & _ & _ & Hone).
    { vm_compute. right. left. }
    exists q'. split; [exact Hw|]. apply Hone.
    vm_compute. repeat constructor; intros Hin;
      repeat (apply elem_of_cons in Hin as [Hin|Hin]; [discriminate|]);
      by apply elem_of_nil in Hin.
  - destruct (signout_outcomes cfg0 _ _ (u "104") (u "Di") Hc Hn Hs) as (Hout & _).
    apply Hout. vm_compute. intros Hin.
    repeat (apply elem_of_cons in Hin as [Hin|Hin]; [discriminate|]).
    by apply elem_of_nil in Hin.
Defined.


Lemma load_queue_outcomes_witness :
  _load_queue cfg0 fresh_world = (Ret (of_queue []), fresh_world) ∧
  _load_queue cfg0 garbled_world = (Raise JSONDecodeError, garbled_world) ∧
  _load_queue cfg0 (world_with [ann; bo]) = (Ret (of_queue [ann; bo]), world_with [ann; bo]).
Proof.
  split; [|split].
  - apply (load_queue_outcomes cfg0 fresh_world). reflexivity.
  - destruct (load_queue_outcomes cfg0 garbled_world) as [_ Hfile].
    destruct (Hfile (u "[{oops")) as [Hbad _]; [vm_compute; reflexivity|].
    apply Hbad; [vm_compute; reflexivity | reflexivity].
  - destruct (load_queue_outcomes cfg0 (world_with [ann; bo])) as [_ Hfile].
    destruct (Hfile (PyJson.dumps (of_queue [ann; bo]))) as [_ Hgood];
      [vm_compute; reflexivity|].
    apply Hgood; [vm_compute; reflexivity | reflexivity].
Defined.

Lemma save_then_load_witness :
  queue_text_ok [ann; bo] ∧ calm fresh_world ∧ named cfg0 ∧
  ∃ w', _save_queue cfg0 (of_queue [ann; bo]) fresh_world = (Ret (), w') ∧
        _load_queue cfg0 w' = (Ret (of_queue [ann; bo]), w').
Proof.
  assert (Hok : queue_text_ok [ann; bo]).
  { repeat constructor; apply text_ok_ascii; repeat constructor. }
  assert (Hc : calm fresh_world) by reflexivity.
  assert (Hn : named cfg0) by (vm_compute; discriminate).
  split; [exact Hok|]. split; [exact Hc|]. split; [exact Hn|].
  apply (save_then_load cfg0 [ann; bo] fresh_world Hok); assumption.
Defined.

Lemma callback_dispatch_witness :
  str_lower_ascii ∧
  callback cfg0 (mkEvent (Some (u "bot")) (Some (u "!signup")) (u "9") None) fresh_world
    = (Ret OK_200, fresh_world) ∧
  callback cfg0 (mkEvent (Some (u "user")) (Some (u "hello")) (u "9") None) fresh_world
    = (Ret OK_200, fresh_world) ∧
  callback cfg0 (mkEvent (Some (u "user")) (Some (u "!SignUp")) (u "101") (Some (u "Ann")))
    fresh_world
    = (_signup cfg0 (u "101") (u "Ann");; mret OK_200) fresh_world.
Proof.
  split; [exact ref_runtime_lower|]. split; [|split].
  - destruct (callback_dispatch cfg0
      (mkEvent (Some (u "bot")) (Some (u "!signup")) (u "9") None) fresh_world)
      as (Hbot & _).
    apply Hbot. vm_compute. discriminate.
  - destruct (callback_dispatch cfg0
      (mkEvent (Some (u "user")) (Some (u "hello")) (u "9") None) fresh_world)
      as (_ & Huser & _).
    destruct (Huser eq_refl) as (_ & _ & _ & _ & Hother).
    apply Hother. apply not_in_commands; vm_compute; discriminate.
  - destruct (callback_dispatch cfg0
      (mkEvent (Some (u "user")) (Some (u "!SignUp")) (u "101") (Some (u "Ann")))
      fresh_world) as (_ & Huser & _).
    destruct (Huser eq_refl) as (Hsignup & _).
    apply Hsignup. reflexivity.
Defined.

(** C2. The notification is to go out only after the changed queue
    is saved, and not at all when the save fails.  [_daily_ping] run
    on the queue [Ann, Bo] with a file system that refuses the save:
    the ping to Ann is posted, the call ends in [OSError], and the
    queue file still holds Ann in front. *)
Lemma ping_posted_but_not_saved :
  (_daily_ping cfg0 (full_disk_world [ann; bo])).1 = Raise OSError ∧
  outbox (_daily_ping cfg0 (full_disk_world [ann; bo])).2
    = [_post_payload cfg0 (msg_turn (u "Ann")) (Some ann)] ∧
  files (_daily_ping cfg0 (full_disk_world [ann; bo])).2
    = files (full_disk_world [ann; bo]) ∧
  stored cfg0 (_daily_ping cfg0 (full_disk_world [ann; bo])).2 [ann; bo] ∧
  ¬ written cfg0 (_daily_ping cfg0 (full_disk_world [ann; bo])).2 [bo; ann].
Proof.
  split; [by vm_compute|]. split; [by vm_compute|]. split; [by vm_compute|].
  split; [by vm_compute|]. vm_compute. discriminate.
Qed.

(** C6 as it is stated fails on a padded token: [" !help"] is not one
    of the four tokens in any case, and it is answered with the help
    text. *)
Lemma padded_help_is_answered :
  sender_type (mkEvent (Some (u "user")) (Some (u " !help")) (u "101") (Some (u "Ann")))
    = Some (u "user") ∧
  (str_lower (u " !help") ∉ commands) ∧
  outbox
    (callback cfg0 (mkEvent (Some (u "user")) (Some (u " !help")) (u "101") (Some (u "Ann")))
       fresh_world).2
  = [_post_payload cfg0 msg_help None].
Proof.
  split; [reflexivity|]. split.
  - apply not_in_commands; vm_compute; discriminate.
  - by vm_compute.
Qed.

(** C7 as it is stated fails on a queue file whose text is JSON and
    not a queue: the text [null] is loaded as [None], which is no
    queue, and nothing is raised; [_daily_ping] then returns as on an
    empty queue.  The text [{}] is loaded as an empty dict, and
    [_show_queue] answers that the queue is empty.  The text [[1]] is
    loaded as a list of one number; it is the sign-up that raises,
    when it subscripts the number. *)
Lemma null_store_is_loaded :
  files (world_of (u "null")) !! QUEUE_FILE cfg0 = Some (u "null") ∧
  _load_queue cfg0 (world_of (u "null")) = (Ret PNone, world_of (u "null")) ∧
  (∀ q, of_queue q ≠ PNone) ∧
  _daily_ping cfg0 (world_of (u "null")) = (Ret (), world_of (u "null")) ∧
  _load_queue cfg0 (world_of (u "{}")) = (Ret (PDict []), world_of (u "{}")) ∧
  text <$> outbox (_show_queue cfg0 (world_of (u "{}"))).2 = [msg_empty] ∧
  _load_queue cfg0 (world_of (u "[1]")) = (Ret (PList [PInt 1]), world_of (u "[1]")) ∧
  _signup cfg0 (u "101") (u "Ann") (world_of (u "[1]")) = (Raise TypeError, world_of (u "[1]")).
Proof.
  split; [by vm_compute|]. split; [by vm_compute|]. split; [done|].
  split; [by vm_compute|]. split; [by vm_compute|]. split; [by vm_compute|].
  split; by vm_compute.
Qed.

(** C9 as it is stated fails on a name that holds a surrogate pair as
    two characters: [json.dump] writes the two escapes, and [json.load]
    reads them as the one character they encode, so the entry that
    comes back has another name. *)
Lemma surrogate_pair_is_joined :
  name pair_entry = [0xD83D; 0xDE00] ∧ name joined_entry = [0x1F600] ∧
  of_queue [joined_entry] ≠ of_queue [pair_entry] ∧
  ∃ w', _save_queue cfg0 (of_queue [pair_entry]) fresh_world = (Ret (), w') ∧
        calm w' ∧
        _load_queue cfg0 w' = (Ret (of_queue [joined_entry]), w').
Proof.
  split; [done|]. split; [done|]. split; [done|].
  eexists. split; [by vm_compute|]. split; by vm_compute.
Qed.

End Runs.


(** * More on the store *)

Section StoreMore.
Context `{Runtime} (cfg : Config).

(** X1. [_load_queue] only reads: whatever it returns or raises, no file is
    changed, nothing is posted, and the network is not used. *)
Theorem load_reads_only w :
  files (_load_queue cfg w).2 = files w ∧
  outbox (_load_queue cfg w).2 = outbox w ∧
  net (_load_queue cfg w).2 = net w.
Proof.
  destruct (load_cases cfg w) as (w1 & [[e ->]|(v & -> & _)] & Hf & Hob & Hnet);
    by simpl.
Qed.

(** X2. [_save_queue] writes through a temporary file and renames it over
    the queue file.  When the two are different files, the queue file
    holds, whatever the file system does, either all of what it held
    (and the save raised) or all of the new dump (and the save
    returned): never a part. *)
Theorem save_all_or_nothing (q : pyval) w tmp :
  with_suffix (QUEUE_FILE cfg) (u ".tmp") = Some tmp → tmp ≠ QUEUE_FILE cfg →
  ((∃ e, (_save_queue cfg q w).1 = Raise e) ∧
   files (_save_queue cfg q w).2 !! QUEUE_FILE cfg = files w !! QUEUE_FILE cfg)
  ∨ ((_save_queue cfg q w).1 = Ret () ∧
     files (_save_queue cfg q w).2 !! QUEUE_FILE cfg = Some (json_dumps q)).
Proof.
  intros Ht Hne. destruct w as [fs ob dk nt]. run. rewrite Ht.
  destruct dk as [|[|n1] [|[|n2] [|[|n3] [|[|n4] dk]]]]; simpl;
    rewrite ?lookup_insert_eq; simpl;
    first [ right; split; [reflexivity | by rewrite lookup_insert_eq]
          | left; split; [by eexists|]; by rewrite ?lookup_insert_ne ].
Qed.

(** X3. [_save_queue] keeps to its two files: every other path holds after
    the save, failed or not, what it held before; and a save that
    returns leaves no temporary file behind. *)
Theorem save_touches_two_files (q : pyval) w tmp :
  with_suffix (QUEUE_FILE cfg) (u ".tmp") = Some tmp →
  (∀ p, p ≠ QUEUE_FILE cfg → p ≠ tmp →
        files (_save_queue cfg q w).2 !! p = files w !! p) ∧
  (tmp ≠ QUEUE_FILE cfg → (_save_queue cfg q w).1 = Ret () →
   files (_save_queue cfg q w).2 !! tmp = None).
Proof.
  intros Ht. destruct w as [fs ob dk nt]. run. rewrite Ht. split.
  - intros p Hq Hp.
    destruct dk as [|[|n1] [|[|n2] [|[|n3] [|[|n4] dk]]]]; simpl;
      rewrite ?lookup_insert_eq; simpl;
      rewrite ?lookup_insert_ne, ?lookup_delete_ne, ?lookup_insert_ne by done; done.
  - intros Hne.
    destruct dk as [|[|n1] [|[|n2] [|[|n3] [|[|n4] dk]]]]; simpl;
      rewrite ?lookup_insert_eq; simpl; try discriminate; intros _;
      rewrite lookup_insert_ne by done; apply lookup_delete_eq.
Qed.

(** X4. When [QUEUE_FILE] already ends in [.tmp], the temporary file is the
    queue file itself: a write that fails after [n] characters leaves
    the queue file with those [n] characters of the new dump. *)
Theorem save_in_place_truncates (q : pyval) w n rest :
  with_suffix (QUEUE_FILE cfg) (u ".tmp") = Some (QUEUE_FILE cfg) →
  disk w = IoOk :: IoOk :: IoErr n :: rest →
  (_save_queue cfg q w).1 = Raise OSError ∧
  files (_save_queue cfg q w).2 !! QUEUE_FILE cfg = Some (take n (json_dumps q)).
Proof.
  intros Ht Hd. destruct w as [fs ob dk nt]. simpl in Hd. subst dk.
  run. rewrite Ht. simpl. split; [done|]. apply lookup_insert_eq.
Qed.

End StoreMore.

(** * More on the handlers *)

Section HandlersMore.
Context `{Runtime} (cfg : Config).

Lemma load_malformed w t :
  files w !! QUEUE_FILE cfg = Some t → json_loads t = None →
  ∃ e w1, _load_queue cfg w = (Raise e, w1) ∧ files w1 = files w ∧ outbox w1 = outbox w.
Proof.
  intros E J.
  destruct (load_cases cfg w) as (w1 & [[e He]|(v & _ & Hs)] & Hf & Hob & _).
  - by exists e, w1.
  - unfold holds in Hs. rewrite E in Hs. congruence.
Qed.

(** X5. A queue file that does not decode stops every handler that reads
    the queue: [_signup], [_signout], [_show_queue] and [_daily_ping]
    raise, post nothing and leave every file as it was, so the file is
    not overwritten with a fresh queue. *)
Theorem malformed_store_aborts w t uid nm :
  files w !! QUEUE_FILE cfg = Some t → json_loads t = None →
  ∀ h, h ∈ [_signup cfg uid nm; _signout cfg uid nm; _show_queue cfg; _daily_ping cfg] →
  (∃ e, (h w).1 = Raise e) ∧ files (h w).2 = files w ∧ outbox (h w).2 = outbox w.
Proof.
  intros E J h Hh.
  destruct (load_malformed w t E J) as (e & w1 & Hl & Hf & Hob).
  repeat (apply elem_of_cons in Hh as [->|Hh]);
    [ unfold _signup | unfold _signout | unfold _show_queue | unfold _daily_ping
    | by apply elem_of_nil in Hh ];
    rewrite (bind_raise _ _ _ _ _ Hl); simpl; eauto.
Qed.

Lemma signup_absent_calm w q uid nm :
  calm w → named cfg → stored cfg w q → uid ∉ ids q →
  ∃ w1, calm w1 ∧ written cfg w1 (q ++ [mkEntry uid nm]) ∧ outbox w1 = outbox w ∧
        net w1 = net w ∧
        _signup cfg uid nm w = _post cfg (msg_joined nm) None w1.
Proof.
  intros Hc Hn Hs Hin.
  rewrite (signup_on_queue cfg _ _ _ _ _ (load_stored cfg w q Hc Hs)).
  destruct (existsb _ q) eqn:E; [by apply existsb_ids in E|].
  destruct (save_calm cfg (of_queue (q ++ [mkEntry uid nm])) w Hc Hn)
    as (w1 & Hsave & Hw & Ho & Hnet & Hc1).
  exists w1. by rewrite (bind_ret _ _ _ _ _ Hsave).
Qed.

Lemma signout_present_calm w q uid nm :
  calm w → named cfg → stored cfg w q → uid ∈ ids q →
  ∃ w1, calm w1 ∧ written cfg w1 (filter (λ e, user_id e ≠ uid) q) ∧
        outbox w1 = outbox w ∧ net w1 = net w ∧
        _signout cfg uid nm w = _post cfg (msg_left nm) None w1.
Proof.
  intros Hc Hn Hs Hin.
  rewrite (signout_on_queue cfg _ _ _ _ _ (load_stored cfg w q Hc Hs)).
  rewrite decide_False.
  2:{ intros E. by apply filter_other_length in E. }
  destruct (save_calm cfg (of_queue (filter (λ e, user_id e ≠ uid) q)) w Hc Hn)
    as (w1 & Hsave & Hw & Ho & Hnet & Hc1).
  exists w1. by rewrite (bind_ret _ _ _ _ _ Hsave).
Qed.

(** X6. A reply that GroupMe refuses does not undo the change: when the
    post fails, [_signup] of a new identity and [_signout] of a stored
    one end in [HTTPError] with the changed queue already in the queue
    file. *)
Theorem refused_reply_keeps_change w q uid nm :
  calm w → named cfg → stored cfg w q → ¬ online w →
  (uid ∉ ids q →
     (_signup cfg uid nm w).1 = Raise HTTPError ∧
     written cfg (_signup cfg uid nm w).2 (q ++ [mkEntry uid nm])) ∧
  (uid ∈ ids q →
     (_signout cfg uid nm w).1 = Raise HTTPError ∧
     written cfg (_signout cfg uid nm w).2 (filter (λ e, user_id e ≠ uid) q)).
Proof.
  intros Hc Hn Hs Hoff. split; intros Hin.
  - destruct (signup_absent_calm w q uid nm) as (w1 & _ & Hw & _ & Hnet & ->); [done..|].
    rewrite post_offline; [done|]. unfold online in *. by rewrite Hnet.
  - destruct (signout_present_calm w q uid nm) as (w1 & _ & Hw & _ & Hnet & ->); [done..|].
    rewrite post_offline; [done|]. unfold online in *. by rewrite Hnet.
Qed.

Lemma find_own_prefix (tag rest : str) : find (tag ++ rest) tag = 0%Z.
Proof.
  unfold find. destruct tag as [|c tag]; [by destruct rest|].
  cbn [find_from app]. change (c :: tag ++ rest) with ((c :: tag) ++ rest).
  by rewrite is_prefix_app.
Qed.

Lemma ping_payload (e : Entry) :
  [_post_payload cfg (msg_turn (name e)) (Some e)] = pings cfg [e].
Proof.
  unfold pings, _post_payload, msg_turn. cbv zeta.
  rewrite (app_assoc (u "@") (name e)), find_own_prefix.
  rewrite decide_True by (intros ?; discriminate).
  rewrite <- (app_assoc (u "@") (name e)), length_app.
  change (length (u "@")) with 1%nat. reflexivity.
Qed.

(** X7. The mention of the daily ping: whatever follows, the one message
    [_daily_ping] posts for the front entry mentions that entry's
    user at offset 0, over the ["@"] and the whole stored name. *)
Theorem daily_ping_mentions_front w front rest :
  calm w → stored cfg w (front :: rest) →
  outbox (_daily_ping cfg w).2 = outbox w ++ pings cfg [front].
Proof.
  intros Hc Hs.
  rewrite (daily_ping_on_queue cfg _ _ _ (load_stored cfg w _ Hc Hs)).
  rewrite <- ping_payload.
  destruct (decide (online w)) as [Ho|Ho].
  - rewrite (bind_ret _ _ _ _ _ (ping_online cfg _ _ w Ho)).
    match goal with |- context [_save_queue cfg ?q' ?w2] =>
      destruct (save_cases cfg q' w2) as (w3 & [[e ->]|[-> _]] & Hob3 & _) end;
      simpl; by rewrite Hob3.
  - by rewrite (bind_raise _ _ _ _ _ (ping_offline cfg _ _ w Ho)).
Qed.

(** X8. A ping that GroupMe refuses leaves the queue as it is: the call
    ends in [HTTPError] before anything is saved, so the same entry is
    in front at the next ping. *)
Theorem refused_ping_keeps_queue w front rest :
  calm w → stored cfg w (front :: rest) → ¬ online w →
  (_daily_ping cfg w).1 = Raise HTTPError ∧
  files (_daily_ping cfg w).2 = files w ∧
  stored cfg (_daily_ping cfg w).2 (front :: rest).
Proof.
  intros Hc Hs Ho.
  rewrite (daily_ping_on_queue cfg _ _ _ (load_stored cfg w _ Hc Hs)).
  by rewrite (bind_raise _ _ _ _ _ (ping_offline cfg _ _ w Ho)).
Qed.

End HandlersMore.

(** * How the handlers compose *)

Section Compose.
Context `{Runtime} (cfg : Config).

Lemma written_stored w q :
  written cfg w q → json_loads (json_dumps (of_queue q)) = Some (of_queue q) →
  stored cfg w q.
Proof. unfold written, dumped, stored, holds. by intros ->. Qed.




Lemma ping_step w front rest :
  calm w → net w = [] → named cfg → stored cfg w (front :: rest) →
  ∃ w', _daily_ping cfg w = (Ret (), w') ∧ written cfg w' (rest ++ [front]) ∧
        outbox w' = outbox w ++ pings cfg [front] ∧ calm w' ∧ net w' = [].
Proof.
  intros Hc Hnet Hn Hs.
  rewrite (daily_ping_on_queue cfg _ _ _ (load_stored cfg w _ Hc Hs)).
  assert (Ho : online w) by (unfold online; by rewrite Hnet).
  rewrite (bind_ret _ _ _ _ _ (ping_online cfg _ _ w Ho)).
  match goal with |- context [_save_queue cfg ?q' ?w1] =>
    destruct (save_calm cfg q' w1) as (w' & Hsave & Hw & Hob & Hnet' & Hc'); [done..|] end.
  exists w'. split; [done|]. split; [done|].
  split; [by rewrite Hob, <- ping_payload|]. split; [done|].
  rewrite Hnet'. simpl. by rewrite Hnet.
Qed.

Lemma pings_run (k : nat) : ∀ w q,
  (k ≤ length q)%nat →
  (∀ q', q' ≡ₚ q → json_loads (json_dumps (of_queue q')) = Some (of_queue q')) →
  calm w → net w = [] → named cfg → stored cfg w q →
  ∃ w', run_all (replicate k (_daily_ping cfg)) w = (Ret (), w') ∧
        stored cfg w' (drop k q ++ take k q) ∧
        outbox w' = outbox w ++ pings cfg (take k q) ∧ calm w' ∧ net w' = [].
Proof.
  induction k as [|k IH]; intros w q Hk Hrt Hc Hnet Hn Hs.
  - exists w. rewrite drop_0, take_0, !app_nil_r. done.
  - destruct q as [|front rest]; [simpl in Hk; lia|]. simpl in Hk.
    destruct (ping_step w front rest Hc Hnet Hn Hs) as (w1 & Hrun & Hw & Hob & Hc1 & Hnet1).
    assert (Hperm : rest ++ [front] ≡ₚ front :: rest)
      by (symmetry; apply Permutation_cons_append).
    destruct (IH w1 (rest ++ [front])) as (w' & Hrun' & Hs' & Hob' & Hc' & Hnet'); try done.
    + rewrite length_app. simpl. lia.
    + intros q' Hq'. apply Hrt. by rewrite Hq'.
    + apply written_stored; [done|]. by apply Hrt.
    + exists w'. cbn [replicate run_all]. rewrite (bind_ret _ _ _ _ _ Hrun).
      split; [done|].
      rewrite drop_app_le, take_app_le in Hs' by lia.
      rewrite take_app_le in Hob' by lia.
      split; [|split; [|done]].
      * cbn [drop take]. by rewrite <- app_assoc in Hs'.
      * rewrite Hob', Hob, <- app_assoc. done.
Qed.

(** X11. Once round the queue: as many daily pings as there are entries,
    all delivered and saved, ping every entry once, front to back, and
    leave the queue in the order it had at the start. *)
Theorem full_round w q :
  (∀ q', q' ≡ₚ q → json_loads (json_dumps (of_queue q')) = Some (of_queue q')) →
  calm w → net w = [] → named cfg → stored cfg w q →
  ∃ w', run_all (replicate (length q) (_daily_ping cfg)) w = (Ret (), w') ∧
        stored cfg w' q ∧ outbox w' = outbox w ++ pings cfg q.
Proof.
  intros Hrt Hc Hnet Hn Hs.
  destruct (pings_run (length q) w q) as (w' & Hrun & Hs' & Hob & _); try done.
  rewrite drop_all, firstn_all in *. by exists w'.
Qed.

End Compose.

(** * More on the listing and the webhook *)

Section WebhookMore.
Context `{Runtime} (cfg : Config).

Lemma seq_ret_world {A B} (m : M A) (b : B) w : ((m;; mret b) w).2 = (m w).2.
Proof. unfold mbind, M_bind, mret, M_ret. by destruct (m w) as [[a|e] w']. Qed.

Lemma show_queue_keeps_files w : files (_show_queue cfg w).2 = files w.
Proof.
  unfold _show_queue.
  destruct (load_cases cfg w) as (w1 & [[e He]|(v & Hv & _)] & Hf & _).
  - by rewrite (bind_raise _ _ _ _ _ He).
  - rewrite (bind_ret _ _ _ _ _ Hv).
    destruct (negb (truthy v)); [by rewrite post_run|].
    rewrite py_bind. destruct (items ← py_iter v; py_enumerate _ 0 items) as [lines|e];
      [by rewrite post_run | done].
Qed.

(** X12. [_show_queue] only reads the store: in every world it leaves all
    files as they were.  With the queue file readable it posts one
    message: the "queue is empty" text for the empty queue, otherwise
    the header and one line per entry, numbered from 1 in queue
    order. *)
Theorem show_queue_lists w :
  files (_show_queue cfg w).2 = files w ∧
  ∀ q, calm w → stored cfg w q →
    ∃ txt, outbox (_show_queue cfg w).2 = outbox w ++ [mkPayload (BOT_ID cfg) txt None] ∧
      (q = [] → txt = msg_empty) ∧
      (q ≠ [] →
       ∃ lines, txt = msg_listing (join [NL] lines) ∧ length lines = length q ∧
         ∀ i e, q !! i = Some e →
                lines !! i = Some (str_of_nat (S i) ++ u ". " ++ name e)).
Proof.
  split; [apply show_queue_keeps_files|].
  - intros q Hc Hs.
    rewrite (show_queue_on_queue cfg _ _ _ (load_stored cfg w q Hc Hs)).
    destruct q as [|e0 q].
    + exists msg_empty. by rewrite post_run.
    + eexists. rewrite post_run. split; [reflexivity|]. split; [done|]. intros _.
      eexists. split; [reflexivity|]. split; [by rewrite length_imap|].
      intros i e Hi. rewrite list_lookup_imap, Hi. simpl. by rewrite Nat.add_1_r.
Qed.

Lemma signup_one_reply uid nm w : one_plain_reply cfg (_signup cfg uid nm) w.
Proof.
  unfold one_plain_reply, _signup.
  destruct (load_cases cfg w) as (w1 & [[e He]|(v & Hv & _)] & _ & Hob & _).
  { rewrite (bind_raise _ _ _ _ _ He). by left. }
  rewrite (bind_ret _ _ _ _ _ Hv), py_bind.
  destruct (items ← py_iter v; py_any _ items) as [[]|e]; [| |by left].
  { right. eexists. rewrite post_run. simpl. by rewrite Hob. }
  rewrite py_bind. destruct (py_append v _) as [v'|e]; [|by left].
  destruct (save_cases cfg v' w1)
    as (w3 & [[e He]|[Hsave _]] & Hob3 & _).
  { rewrite (bind_raise _ _ _ _ _ He). left. simpl. congruence. }
  rewrite (bind_ret _ _ _ _ _ Hsave). right. eexists. rewrite post_run. simpl.
  by rewrite Hob3, Hob.
Qed.

Lemma signout_one_reply uid nm w : one_plain_reply cfg (_signout cfg uid nm) w.
Proof.
  unfold one_plain_reply, _signout.
  destruct (load_cases cfg w) as (w1 & [[e He]|(v & Hv & _)] & _ & Hob & _).
  { rewrite (bind_raise _ _ _ _ _ He). by left. }
  rewrite (bind_ret _ _ _ _ _ Hv), py_bind.
  destruct (items ← py_iter v; py_filter _ items) as [new_q|e]; [|by left].
  rewrite py_bind. destruct (py_len v) as [n|e]; [|by left].
  destruct (decide _).
  { right. eexists. rewrite post_run. simpl. by rewrite Hob. }
  destruct (save_cases cfg (PList new_q) w1)
    as (w3 & [[e He]|[Hsave _]] & Hob3 & _).
  { rewrite (bind_raise _ _ _ _ _ He). left. simpl. congruence. }
  rewrite (bind_ret _ _ _ _ _ Hsave). right. eexists. rewrite post_run. simpl.
  by rewrite Hob3, Hob.
Qed.

Lemma show_queue_one_reply w : one_plain_reply cfg (_show_queue cfg) w.
Proof.
  unfold one_plain_reply, _show_queue.
  destruct (load_cases cfg w) as (w1 & [[e He]|(v & Hv & _)] & _ & Hob & _).
  { rewrite (bind_raise _ _ _ _ _ He). by left. }
  rewrite (bind_ret _ _ _ _ _ Hv).
  destruct (negb (truthy v)).
  { right. eexists. rewrite post_run. simpl. by rewrite Hob. }
  rewrite py_bind. destruct (items ← py_iter v; py_enumerate _ 0 items) as [lines|e];
    [|by left].
  right. eexists. rewrite post_run. simpl. by rewrite Hob.
Qed.

Lemma help_one_reply w : one_plain_reply cfg (_help cfg) w.
Proof. right. eexists. unfold _help. by rewrite post_run. Qed.

(** X13. One webhook call posts at most one message and never a mention;
    and unless the text is the sign-up or the sign-out command it
    leaves every file as it was. *)
Theorem callback_replies data w :
  let t := str_lower (strip (or_default (ev_text data) [])) in
  (outbox (callback cfg data w).2 = outbox w ∨
   ∃ txt, outbox (callback cfg data w).2 = outbox w ++ [mkPayload (BOT_ID cfg) txt None]) ∧
  (t ≠ u "!signup" → t ≠ u "!signout" → files (callback cfg data w).2 = files w).
Proof.
  simpl. unfold callback.
  destruct (decide (sender_type data ≠ Some (u "user"))); [split; [by left|done]|].
  rewrite seq_ret_world. split.
  - repeat case_decide;
      [apply signup_one_reply | apply signout_one_reply
      | apply show_queue_one_reply | apply help_one_reply | by left].
  - intros H1 H2. rewrite !decide_False by done.
    repeat case_decide;
      [apply show_queue_keeps_files | unfold _help; by rewrite post_run | done].
Qed.

Lemma lstrip_blank s : Forall (λ c, is_space c = true) s → lstrip s = [].
Proof. induction 1 as [|c s Hc _ IH]; [done|]. simpl. by rewrite Hc. Qed.

(** X14. A user's event with no text, with empty text or with nothing but
    white space runs no handler: the call answers [OK] and the world
    is as it was. *)
Theorem callback_blank data w :
  str_lower_ascii →
  (ev_text data = None ∨
   ∃ s, ev_text data = Some s ∧ Forall (λ c, is_space c = true) s) →
  callback cfg data w = (Ret OK_200, w).
Proof.
  intros Hlow Hblank. unfold callback.
  destruct (decide (sender_type data ≠ Some (u "user"))); [done|].
  assert (Hs : strip (or_default (ev_text data) []) = []).
  { destruct Hblank as [->|(s & -> & Hs)]; [done|].
    replace (or_default (Some s) []) with s by (by destruct s).
    unfold strip. by rewrite (lstrip_blank s Hs). }
  rewrite Hs, (Hlow [] (Forall_nil_2 _)).
  by rewrite !decide_False by done.
Qed.

(** X15. A sign-up whose event carries no name, or an empty one, is stored
    under the name ["Unknown"]. *)
Theorem signup_without_name data w q :
  sender_type data = Some (u "user") →
  str_lower (strip (or_default (ev_text data) [])) = u "!signup" →
  (ev_name data = None ∨ ev_name data = Some []) →
  calm w → named cfg → stored cfg w q → sender_id data ∉ ids q →
  written cfg (callback cfg data w).2 (q ++ [mkEntry (sender_id data) (u "Unknown")]).
Proof.
  intros Hu Ht Hname Hc Hn Hs Hin. unfold callback.
  rewrite decide_False by (by intros []). rewrite Ht, decide_True by done.
  rewrite seq_ret_world.
  replace (or_default (ev_name data) (u "Unknown")) with (u "Unknown")
    by (by destruct Hname as [-> | ->]).
  destruct (signup_absent_calm cfg w q (sender_id data) (u "Unknown"))
    as (w1 & _ & Hw & _ & _ & ->); [done..|].
  by rewrite post_run.
Qed.

End WebhookMore.

(** * More runs on the reference runtime *)

Section MoreRuns.
Existing Instance ref_runtime.

Lemma save_all_or_nothing_witness :
  with_suffix (QUEUE_FILE cfg0) (u ".tmp") = Some (u "queue.tmp") ∧
  u "queue.tmp" ≠ QUEUE_FILE cfg0 ∧
  (((∃ e, (_save_queue cfg0 (of_queue [bo]) (full_disk_world [ann])).1 = Raise e) ∧
    files (_save_queue cfg0 (of_queue [bo]) (full_disk_world [ann])).2 !! QUEUE_FILE cfg0
      = files (full_disk_world [ann]) !! QUEUE_FILE cfg0)
   ∨ ((_save_queue cfg0 (of_queue [bo]) (full_disk_world [ann])).1 = Ret () ∧
      files (_save_queue cfg0 (of_queue [bo]) (full_disk_world [ann])).2 !! QUEUE_FILE cfg0
        = Some (json_dumps (of_queue [bo])))).
Proof.
  assert (Ht : with_suffix (QUEUE_FILE cfg0) (u ".tmp") = Some (u "queue.tmp"))
    by reflexivity.
  assert (Hne : u "queue.tmp" ≠ QUEUE_FILE cfg0) by (vm_compute; discriminate).
  split; [exact Ht|]. split; [exact Hne|].
  exact (save_all_or_nothing cfg0 (of_queue [bo]) (full_disk_world [ann]) _ Ht Hne).
Defined.

Lemma save_touches_two_files_witness :
  with_suffix (QUEUE_FILE cfg0) (u ".tmp") = Some (u "queue.tmp") ∧
  files (_save_queue cfg0 (of_queue [bo]) (world_with [ann])).2 !! u "notes.txt"
    = files (world_with [ann]) !! u "notes.txt" ∧
  files (_save_queue cfg0 (of_queue [bo]) (world_with [ann])).2 !! u "queue.tmp" = None.
Proof.
  assert (Ht : with_suffix (QUEUE_FILE cfg0) (u ".tmp") = Some (u "queue.tmp"))
    by reflexivity.
  split; [exact Ht|].
  destruct (save_touches_two_files cfg0 (of_queue [bo]) (world_with [ann]) _ Ht) as [Hother Htmp].
  split.
  - apply Hother; vm_compute; discriminate.
  - apply Htmp; [vm_compute; discriminate | vm_compute; reflexivity].
Defined.

Lemma save_in_place_truncates_witness :
  with_suffix (QUEUE_FILE cfg_tmp) (u ".tmp") = Some (QUEUE_FILE cfg_tmp) ∧
  files (_save_queue cfg_tmp (of_queue [ann])
           (mkWorld {[ QUEUE_FILE cfg_tmp := json_dumps (of_queue [ann; bo]) ]} []
              [IoOk; IoOk; IoErr 3] [])).2 !! QUEUE_FILE cfg_tmp
    = Some (take 3 (json_dumps (of_queue [ann]))).
Proof.
  assert (Ht : with_suffix (QUEUE_FILE cfg_tmp) (u ".tmp") = Some (QUEUE_FILE cfg_tmp))
    by reflexivity.
  split; [exact Ht|].
  apply (save_in_place_truncates cfg_tmp (of_queue [ann]) _ 3 [] Ht). reflexivity.
Defined.

Lemma malformed_store_aborts_witness :
  files garbled_world !! QUEUE_FILE cfg0 = Some (u "[{oops") ∧
  json_loads (u "[{oops") = None ∧
  (∃ e, (_signup cfg0 (u "101") (u "Ann") garbled_world).1 = Raise e) ∧
  files (_signup cfg0 (u "101") (u "Ann") garbled_world).2 = files garbled_world ∧
  outbox (_signup cfg0 (u "101") (u "Ann") garbled_world).2 = outbox garbled_world.
Proof.
  assert (Hf : files garbled_world !! QUEUE_FILE cfg0 = Some (u "[{oops"))
    by (vm_compute; reflexivity).
  assert (Hj : json_loads (u "[{oops") = None) by (vm_compute; reflexivity).
  split; [exact Hf|]. split; [exact Hj|].
  apply (malformed_store_aborts cfg0 garbled_world _ (u "101") (u "Ann") Hf Hj).
  left.
Defined.

Lemma refused_reply_keeps_change_witness :
  calm (offline_world [ann]) ∧ named cfg0 ∧ stored cfg0 (offline_world [ann]) [ann] ∧
  ¬ online (offline_world [ann]) ∧
  (_signup cfg0 (u "102") (u "Bo") (offline_world [ann])).1 = Raise HTTPError ∧
  written cfg0 (_signup cfg0 (u "102") (u "Bo") (offline_world [ann])).2 [ann; bo].
Proof.
  assert (Hc : calm (offline_world [ann])) by reflexivity.
  assert (Hn : named cfg0) by (vm_compute; discriminate).
  assert (Hs : stored cfg0 (offline_world [ann]) [ann]) by (vm_compute; reflexivity).
  assert (Ho : ¬ online (offline_world [ann])) by (intros Ho; apply Ho; reflexivity).
  split; [exact Hc|]. split; [exact Hn|]. split; [exact Hs|]. split; [exact Ho|].
  destruct (refused_reply_keeps_change cfg0 _ _ (u "102") (u "Bo") Hc Hn Hs Ho) as [Hup _].
  apply Hup. vm_compute. intros Hin.
  apply list_elem_of_singleton in Hin. discriminate.
Defined.

Lemma daily_ping_mentions_front_witness :
  calm (world_with [ann; bo]) ∧ stored cfg0 (world_with [ann; bo]) [ann; bo] ∧
  outbox (_daily_ping cfg0 (world_with [ann; bo])).2
    = outbox (world_with [ann; bo]) ++ pings cfg0 [ann].
Proof.
  assert (Hc : calm (world_with [ann; bo])) by reflexivity.
  assert (Hs : stored cfg0 (world_with [ann; bo]) [ann; bo]) by (vm_compute; reflexivity).
  split; [exact Hc|]. split; [exact Hs|].
  exact (daily_ping_mentions_front cfg0 _ ann [bo] Hc Hs).
Defined.

Lemma refused_ping_keeps_queue_witness :
  calm (offline_world [ann; bo]) ∧ stored cfg0 (offline_world [ann; bo]) [ann; bo] ∧
  ¬ online (offline_world [ann; bo]) ∧
  (_daily_ping cfg0 (offline_world [ann; bo])).1 = Raise HTTPError ∧
  stored cfg0 (_daily_ping cfg0 (offline_world [ann; bo])).2 [ann; bo].
Proof.
  assert (Hc : calm (offline_world [ann; bo])) by reflexivity.
  assert (Hs : stored cfg0 (offline_world [ann; bo]) [ann; bo]) by (vm_compute; reflexivity).
  assert (Ho : ¬ online (offline_world [ann; bo])) by (intros Ho; apply Ho; reflexivity).
  split; [exact Hc|]. split; [exact Hs|]. split; [exact Ho|].
  destruct (refused_ping_keeps_queue cfg0 _ ann [bo] Hc Hs Ho) as (Hr & _ & Hq).
  split; [exact Hr | exact Hq].
Defined.



Lemma full_round_witness :
  calm (world_with [ann; bo; cy]) ∧ net (world_with [ann; bo; cy]) = [] ∧ named cfg0 ∧
  stored cfg0 (world_with [ann; bo; cy]) [ann; bo; cy] ∧
  ∃ w', run_all (replicate 3 (_daily_ping cfg0)) (world_with [ann; bo; cy]) = (Ret (), w') ∧
        stored cfg0 w' [ann; bo; cy] ∧ outbox w' = pings cfg0 [ann; bo; cy].
Proof.
  assert (Hc : calm (world_with [ann; bo; cy])) by reflexivity.
  assert (Hnet : net (world_with [ann; bo; cy]) = []) by reflexivity.
  assert (Hn : named cfg0) by (vm_compute; discriminate).
  assert (Hs : stored cfg0 (world_with [ann; bo; cy]) [ann; bo; cy])
    by (vm_compute; reflexivity).
  split; [exact Hc|]. split; [exact Hnet|]. split; [exact Hn|]. split; [exact Hs|].
  refine (full_round cfg0 _ [ann; bo; cy] _ Hc Hnet Hn Hs).
  intros q' Hq'. apply loads_dumps_queue.
  assert (Hok : queue_text_ok [ann; bo; cy]).
  { repeat constructor; apply text_ok_ascii; repeat constructor. }
  unfold queue_text_ok in *. by rewrite Hq'.
Defined.

Lemma callback_blank_witness :
  str_lower_ascii ∧
  Forall (λ c, is_space c = true) (u "   ") ∧
  callback cfg0 (mkEvent (Some (u "user")) (Some (u "   ")) (u "101") (Some (u "Ann")))
    (world_with [ann])
  = (Ret OK_200, world_with [ann]).
Proof.
  assert (Hb : Forall (λ c, is_space c = true) (u "   ")) by (repeat constructor).
  split; [exact ref_runtime_lower|]. split; [exact Hb|].
  apply (callback_blank cfg0 _ _ ref_runtime_lower). right. eexists. split; [reflexivity|exact Hb].
Defined.

Lemma signup_without_name_witness :
  calm (world_with [ann]) ∧ named cfg0 ∧ stored cfg0 (world_with [ann]) [ann] ∧
  written cfg0
    (callback cfg0 (mkEvent (Some (u "user")) (Some (u "!signup")) (u "102") None)
       (world_with [ann])).2
    [ann; mkEntry (u "102") (u "Unknown")].
Proof.
  assert (Hc : calm (world_with [ann])) by reflexivity.
  assert (Hn : named cfg0) by (vm_compute; discriminate).
  assert (Hs : stored cfg0 (world_with [ann]) [ann]) by (vm_compute; reflexivity).
  split; [exact Hc|]. split; [exact Hn|]. split; [exact Hs|].
  apply (signup_without_name cfg0
           (mkEvent (Some (u "user")) (Some (u "!signup")) (u "102") None) _ [ann]);
    try assumption.
  - reflexivity.
  - vm_compute. reflexivity.
  - left. reflexivity.
  - vm_compute. intros Hin. apply list_elem_of_singleton in Hin. discriminate.
Defined.

End MoreRuns.
